(** * Brain Workshop: the trial engine, embedded and verified

    A shallow embedding of the platform-independent domain layer of
    Brain Workshop (the stimulus generator, the match checker / score
    engine and the tick-driven game session), together with the
    properties checked against it.

    Python values are modelled as the interpreter has them: integers are
    unbounded ([Z]), floats are IEEE 754 binary64 (the kernel's primitive
    floats), lists are indexed with Python's rules (negative indices count
    from the end, anything else out of range raises [IndexError]), dicts
    are finite maps with string keys ([KeyError] on a missing key). *)

From Stdlib Require Import ZArith Lia PrimFloat FloatOps SpecFloat.
From stdpp Require Import gmap strings list pretty.

Set Warnings "-inexact-float".

Local Open Scope Z_scope.

(** ** Python runtime model *)

Module Py.

(** The exceptions the modelled code can raise. *)
Inductive exn : Type :=
  | IndexError
  | KeyError
  | TypeError
  | ValueError
  | OverflowError
  | ZeroDivisionError.

(** The outcome of running a piece of code: a value, a raised exception,
    or [Diverge] when the fuel given to a [while True] loop ran out (the
    loop was still running). *)
Inductive res (A : Type) : Type :=
  | Ok (a : A)
  | Raise (e : exn)
  | Diverge.
Arguments Ok {A} a.
Arguments Raise {A} e.
Arguments Diverge {A}.

Definition bind {A B : Type} (m : res A) (k : A → res B) : res B :=
  match m with
  | Ok a => k a
  | Raise e => Raise e
  | Diverge => Diverge
  end.

#[export] Instance res_ret : MRet res := @Ok.
#[export] Instance res_bind : MBind res := λ A B k m, bind m k.

(** [for x in xs: body], threading the loop state. *)
Fixpoint for_each {S X : Type} (body : X → S → res S) (xs : list X) (s : S)
  : res S :=
  match xs with
  | [] => Ok s
  | x :: xs' => s' ← body x s; for_each body xs' s'
  end.

(** [range(a, b)] *)
Definition range (a b : Z) : list Z :=
  (λ i : nat, a + Z.of_nat i) <$> seq 0 (Z.to_nat (b - a)).

(** [l[i]] with Python's index rules. *)
Definition index_of {A : Type} (l : list A) (i : Z) : option nat :=
  let n := Z.of_nat (length l) in
  let j := if i <? 0 then i + n else i in
  if (0 <=? j) && (j <? n) then Some (Z.to_nat j) else None.

Definition getitem {A : Type} (l : list A) (i : Z) : res A :=
  match index_of l i with
  | Some j => match l !! j with Some x => Ok x | None => Raise IndexError end
  | None => Raise IndexError
  end.

(** [l[i] = x] *)
Definition setitem {A : Type} (l : list A) (i : Z) (x : A) : res (list A) :=
  match index_of l i with
  | Some j => Ok (<[j := x]> l)
  | None => Raise IndexError
  end.

(** [d[k]] on a dict. *)
Definition dget {V : Type} (d : gmap string V) (k : string) : res V :=
  match d !! k with
  | Some v => Ok v
  | None => Raise KeyError
  end.

(** [d.get(k, default)] *)
Definition dget_default {V : Type} (d : gmap string V) (k : string) (default : V) : V :=
  match d !! k with
  | Some v => v
  | None => default
  end.

(** A dict that is iterated: the items in insertion order. *)
Definition odict (V : Type) : Type := list (string * V).

Fixpoint oget {V : Type} (d : odict V) (k : string) : option V :=
  match d with
  | [] => None
  | (k', v) :: d' => if String.eqb k' k then Some v else oget d' k
  end.

(** [d[k] = v]: an existing key keeps its place. *)
Fixpoint oset {V : Type} (d : odict V) (k : string) (v : V) : odict V :=
  match d with
  | [] => [(k, v)]
  | (k', v') :: d' =>
      if String.eqb k' k then (k', v) :: d' else (k', v') :: oset d' k v
  end.

Definition oget_res {V : Type} (d : odict V) (k : string) : res V :=
  match oget d k with
  | Some v => Ok v
  | None => Raise KeyError
  end.

Definition oget_default {V : Type} (d : odict V) (k : string) (default : V) : V :=
  match oget d k with
  | Some v => v
  | None => default
  end.

(** [s in l] for strings. *)
Definition in_list (s : string) (l : list string) : bool :=
  existsb (String.eqb s) l.

(** [int(s[-1])]: the last character of [s] as a decimal digit. *)
Fixpoint last_char (s : string) : option Ascii.ascii :=
  match s with
  | EmptyString => None
  | String c EmptyString => Some c
  | String _ s' => last_char s'
  end.

Definition last_digit (s : string) : res Z :=
  match last_char s with
  | None => Raise IndexError
  | Some c =>
      let n := Z.of_nat (Ascii.nat_of_ascii c) in
      if (48 <=? n) && (n <=? 57) then Ok (n - 48) else Raise ValueError
  end.

(** [[f(x) for x in xs]] *)
Fixpoint map_res {A B : Type} (f : A → res B) (xs : list A) : res (list B) :=
  match xs with
  | [] => Ok []
  | x :: xs' => y ← f x; ys ← map_res f xs'; mret (y :: ys)
  end.

(** *** Scalar values

    What a session history holds: stimulus indices and operands (ints),
    input flags (bools), reaction times (floats) and operation names
    (strings). [bool] is a subclass of [int], as in Python. *)
Inductive value : Type :=
  | VInt (z : Z)
  | VBool (b : bool)
  | VFloat (f : float)
  | VStr (s : string).

(** [float(z)] for an int: the nearest binary64 (ties to even);
    [OverflowError] when it is out of range. *)
Definition float_of_Z (z : Z) : res float :=
  match binary_normalize prec emax z 0 false with
  | S754_infinity _ | S754_nan => Raise OverflowError
  | f => Ok (SF2Prim f)
  end.

Definition Z_of_bool (b : bool) : Z := if b then 1 else 0.

(** The exact comparison [z == f] of an int and a float. *)
Definition Z_eq_float (z : Z) (f : float) : bool :=
  match Prim2SF f with
  | S754_zero _ => z =? 0
  | S754_finite s m e =>
      let v := if s then Z.neg m else Z.pos m in
      if 0 <=? e then z =? v * 2 ^ e else z * 2 ^ (- e) =? v
  | _ => false
  end.

(** [a == b] *)
Definition py_eq (a b : value) : bool :=
  match a, b with
  | VStr s, VStr t => String.eqb s t
  | VStr _, _ | _, VStr _ => false
  | VFloat f, VFloat g => PrimFloat.eqb f g
  | VFloat f, VInt z | VInt z, VFloat f => Z_eq_float z f
  | VFloat f, VBool c | VBool c, VFloat f => Z_eq_float (Z_of_bool c) f
  | VInt x, VInt y => x =? y
  | VInt x, VBool c | VBool c, VInt x => x =? Z_of_bool c
  | VBool c, VBool d => Z_of_bool c =? Z_of_bool d
  end.

(** The float a number stands for in mixed arithmetic ([TypeError] for a
    string operand). *)
Definition float_operand (a : value) : res float :=
  match a with
  | VInt z => float_of_Z z
  | VBool b => float_of_Z (Z_of_bool b)
  | VFloat f => Ok f
  | VStr _ => Raise TypeError
  end.

(** [float(a)]. A string in a history is an operation name, which is no
    numeral: [float] of it raises [ValueError]. *)
Definition py_float (a : value) : res float :=
  match a with
  | VStr _ => Raise ValueError
  | _ => float_operand a
  end.

(** Binary arithmetic on numbers: exact on ints, binary64 as soon as one
    operand is a float. *)
Definition arith (iop : Z → Z → Z) (fop : float → float → float) (a b : value)
  : res value :=
  match a, b with
  | VStr _, _ | _, VStr _ => Raise TypeError
  | VFloat _, _ | _, VFloat _ =>
      x ← float_operand a; y ← float_operand b; mret (VFloat (fop x y))
  | VInt x, VInt y => mret (VInt (iop x y))
  | VInt x, VBool c => mret (VInt (iop x (Z_of_bool c)))
  | VBool c, VInt y => mret (VInt (iop (Z_of_bool c) y))
  | VBool c, VBool d => mret (VInt (iop (Z_of_bool c) (Z_of_bool d)))
  end.

Fixpoint repeat_string (n : nat) (s : string) : string :=
  match n with
  | O => EmptyString
  | S n' => String.append s (repeat_string n' s)
  end.

(** [a + b], [a - b], [a * b] *)
Definition py_add (a b : value) : res value :=
  match a, b with
  | VStr s, VStr t => mret (VStr (String.append s t))
  | _, _ => arith Z.add PrimFloat.add a b
  end.

Definition py_sub (a b : value) : res value := arith Z.sub PrimFloat.sub a b.

Definition py_mul (a b : value) : res value :=
  match a, b with
  | VStr s, VInt n | VInt n, VStr s => mret (VStr (repeat_string (Z.to_nat n) s))
  | VStr s, VBool c | VBool c, VStr s =>
      mret (VStr (repeat_string (Z.to_nat (Z_of_bool c)) s))
  | _, _ => arith Z.mul PrimFloat.mul a b
  end.

(** [a / b] on ints (true division), for operands below 2^53, where it is
    the quotient of the two floats. *)
Definition truediv (a b : Z) : res float :=
  if b =? 0 then Raise ZeroDivisionError
  else x ← float_of_Z a; y ← float_of_Z b; mret (x / y)%float.

(** *** The random source

    The generator is a tape of raw outcomes, one cell consumed by each
    call of a primitive of [random]; [variates] holds the outcomes of the
    samplers that go through transcendental functions (betavariate). *)
Record rng : Type := Rng {
  tape : nat → N;
  variates : nat → float;
  cursor : nat
}.

Definition next (r : rng) : rng :=
  {| tape := tape r; variates := variates r; cursor := S (cursor r) |}.

Definition raw (r : rng) : Z := Z.of_N (tape r (cursor r)).

(** [random._randbelow(n)], for [n > 0]. *)
Definition randbelow (n : Z) (r : rng) : Z * rng := (raw r mod n, next r).

(** [random.randint(a, b)] *)
Definition randint (a b : Z) (r : rng) : res (Z * rng) :=
  if b <? a then Raise ValueError
  else let '(k, r') := randbelow (b - a + 1) r in Ok (a + k, r').

(** [random.random()]: a multiple of 2^-53 in [0, 1). *)
Definition random (r : rng) : float * rng :=
  (SF2Prim (binary_normalize prec emax (raw r mod 2 ^ 53) (-53) false), next r).

(** [random.choice(seq)] *)
Definition choice {A : Type} (l : list A) (r : rng) : res (A * rng) :=
  match l with
  | [] => Raise IndexError
  | _ =>
      let '(j, r') := randbelow (Z.of_nat (length l)) r in
      x ← getitem l j; mret (x, r')
  end.

(** [x[i], x[j] = x[j], x[i]] *)
Definition swap_items {A : Type} (x : list A) (i j : Z) : res (list A) :=
  xj ← getitem x j;
  xi ← getitem x i;
  x1 ← setitem x i xj;
  setitem x1 j xi.

(** [random.shuffle(x)]:
    [for i in reversed(range(1, len(x))): j = randbelow(i + 1); swap]. *)
Definition shuffle_body {A : Type} (i : Z) (s : list A * rng) : res (list A * rng) :=
  let '(x, r) := s in
  let '(j, r') := randbelow (i + 1) r in
  x' ← swap_items x i j; mret (x', r').

Definition shuffle {A : Type} (x : list A) (r : rng) : res (list A * rng) :=
  for_each shuffle_body (reverse (range 1 (Z.of_nat (length x)))) (x, r).

(** [random.sample(population, k)] for a population of at most 21
    elements (the pool algorithm):
    [j = randbelow(n - i); result[i] = pool[j]; pool[j] = pool[n - i - 1]]. *)
Definition sample_body {A : Type} (n : Z) (i : Z) (s : list A * list A * rng)
  : res (list A * list A * rng) :=
  let '(result, pool, r) := s in
  let '(j, r') := randbelow (n - i) r in
  pj ← getitem pool j;
  last ← getitem pool (n - i - 1);
  pool' ← setitem pool j last;
  mret (result ++ [pj], pool', r').

Definition sample {A : Type} (population : list A) (k : Z) (r : rng)
  : res (list A * rng) :=
  let n := Z.of_nat (length population) in
  if (k <? 0) || (n <? k) then Raise ValueError
  else
    '(result, _, r') ← for_each (sample_body n) (range 0 k) ([], population, r);
    mret (result, r').

(** [random.betavariate(alpha, beta)]: the outcome is read off the tape of
    variates; the parameters must be positive. *)
Definition betavariate (alpha beta : float) (r : rng) : res (float * rng) :=
  if PrimFloat.ltb 0 alpha && PrimFloat.ltb 0 beta
  then Ok (variates r (cursor r), next r)
  else Raise ValueError.

(** [int(f)] for a float: truncation towards zero. *)
Definition int_of_float (f : float) : res Z :=
  match Prim2SF f with
  | S754_zero _ => Ok 0
  | S754_finite s m e =>
      let a := if 0 <=? e then Z.pos m * 2 ^ e else Z.pos m / 2 ^ (- e) in
      Ok (if s then - a else a)
  | S754_infinity _ => Raise OverflowError
  | S754_nan => Raise ValueError
  end.

End Py.

Import Py.

(** ** Stimulus generator (domain/stimulus_generator.py) *)

Module StimulusGenerator.

(** *** compute_jaeggi_sequence *)

(** The list built by [for x in range(0, num_trials): seq.append(0)]. *)
Definition zeros (num_trials : Z) : list Z :=
  foldl (λ acc _, acc ++ [0]) [] (range 0 num_trials).

(** The loop state of the warm-up fill: both sequences and the generator. *)
Record bt_state : Type := Bt {
  bt_position : list Z;
  bt_audio : list Z;
  bt_rng : rng
}.

(** Body of [for x in range(0, n_back)]: one draw for each sequence. *)
Definition warmup_body (x : Z) (s : bt_state) : res bt_state :=
  '(v0, r0) ← randint 1 8 (bt_rng s);
  p ← setitem (bt_position s) x v0;
  '(v1, r1) ← randint 1 8 r0;
  a ← setitem (bt_audio s) x v1;
  mret (Bt p a r1).

(** Body of the regeneration loops
    [for x in range(n_back, num_trials): seq[x] = randint(1, 8);
       if seq[x] == seq[x - n_back]: count += 1]. *)
Definition fill_body (n_back : Z) (x : Z) (s : list Z * rng * Z)
  : res (list Z * rng * Z) :=
  let '(l, r, count) := s in
  '(v, r') ← randint 1 8 r;
  l' ← setitem l x v;
  a ← getitem l' x;
  b ← getitem l' (x - n_back);
  mret (l', r', if a =? b then count + 1 else count).

Definition fill_pass (n_back num_trials : Z) (l : list Z) (r : rng)
  : res (list Z * rng * Z) :=
  for_each (fill_body n_back) (range n_back num_trials) (l, r, 0).

(** Body of the final counting loop. *)
Definition both_body (n_back : Z) (p a : list Z) (x : Z) (both : Z) : res Z :=
  px ← getitem p x;
  pb ← getitem p (x - n_back);
  if px =? pb then
    ax ← getitem a x;
    ab ← getitem a (x - n_back);
    mret (if ax =? ab then both + 1 else both)
  else mret both.

Definition count_both (n_back num_trials : Z) (p a : list Z) : res Z :=
  for_each (both_body n_back p a) (range n_back num_trials) 0.

(** The inner [while True] (audio), one unit of fuel per iteration. *)
Fixpoint audio_loop (fuel : nat) (n_back num_trials : Z) (a : list Z) (r : rng)
  : res (list Z * rng) :=
  match fuel with
  | O => Diverge
  | S fuel' =>
      '(a', r', audio) ← fill_pass n_back num_trials a r;
      if audio =? 6 then mret (a', r')
      else audio_loop fuel' n_back num_trials a' r'
  end.

(** The outer [while True], one unit of fuel per iteration. *)
Fixpoint outer_loop (fuel : nat) (n_back num_trials : Z) (s : bt_state)
  : res bt_state :=
  match fuel with
  | O => Diverge
  | S fuel' =>
      '(p, r, position) ← fill_pass n_back num_trials (bt_position s) (bt_rng s);
      if negb (position =? 6) then
        outer_loop fuel' n_back num_trials (Bt p (bt_audio s) r)
      else
        '(a, r') ← audio_loop fuel' n_back num_trials (bt_audio s) r;
        both ← count_both n_back num_trials p a;
        if both =? 2 then mret (Bt p a r')
        else outer_loop fuel' n_back num_trials (Bt p a r')
  end.

Definition compute_jaeggi_sequence (fuel : nat) (n_back num_trials : Z) (r : rng)
  : res (list (list Z) * rng) :=
  let z := zeros num_trials in
  s ← for_each warmup_body (range 0 n_back) (Bt z z r);
  s' ← outer_loop fuel n_back num_trials s;
  mret ([bt_position s'; bt_audio s'], bt_rng s').

(** *** generate_variable_nback_sequence *)

Definition variable_body (n_back : Z) (index : Z) (s : list Z * rng)
  : res (list Z * rng) :=
  let '(variable_list, r) := s in
  nb ← float_of_Z n_back;
  '(x, r') ← betavariate (nb / 2) 1 r;
  v ← int_of_float (x * nb + 1);
  mret (variable_list ++ [v], r').

Definition generate_variable_nback_sequence (n_back num_trials : Z) (r : rng)
  : res (list Z * rng) :=
  for_each (variable_body n_back) (range 0 (num_trials - n_back)) ([], r).

(** *** generate_base_stimuli *)

(** A stimulus map: channel name to value, in insertion order. *)
Abbreviation stimuli := (odict value).

Definition position_body (sp : Z * Z) (s : stimuli * rng) : res (stimuli * rng) :=
  let '(i, p) := sp in
  let '(stim, r) := s in
  '(v, r') ← randint 1 8 r;
  mret (oset (oset stim ("position" +:+ pretty i) (VInt p))
             ("vis" +:+ pretty i) (VInt v), r').

Definition generate_base_stimuli (modalities : list string) (multi_mode : Z) (r : rng)
  : res (stimuli * rng) :=
  '(positions, r0) ← sample (range 1 9) 4 r;
  '(stim, r1) ← for_each position_body (zip (range 1 5) positions) ([], r0);
  '(color, r2) ← randint 1 8 r1;
  '(vis, r3) ← randint 1 8 r2;
  '(audio, r4) ← randint 1 8 r3;
  '(audio2, r5) ← randint 1 8 r4;
  mret (oset (oset (oset (oset stim "color" (VInt color)) "vis" (VInt vis))
                   "audio" (VInt audio)) "audio2" (VInt audio2), r5).

(** *** generate_arithmetic_operand *)

(** Whether [x] goes into the pool of divisors. [acceptable] stands for
    the test [(Decimal(abs(previous_result)) / Decimal(abs(x))) % 1 in
    map(Decimal, acceptable_decimals)], which is decimal arithmetic outside
    this model. *)
Definition possibility (acceptable : Z → Z → bool) (previous_result x : Z) : bool :=
  if x =? 0 then false
  else if previous_result mod x =? 0 then true
  else acceptable (Z.abs previous_result) (Z.abs x).

(** [while number == 0: number = random.randint(min_number, max_number)],
    one unit of fuel per iteration. *)
Fixpoint redraw_while_zero (fuel : nat) (min_number max_number number : Z) (r : rng)
  : res (Z * rng) :=
  if number =? 0 then
    match fuel with
    | O => Diverge
    | S fuel' =>
        '(number', r') ← randint min_number max_number r;
        redraw_while_zero fuel' min_number max_number number' r'
    end
  else Ok (number, r).

(** The operand recorded [n] trials back is an int (the session stores
    only operands drawn here); [TypeError] stands for anything else. *)
Definition int_operand (v : value) : res Z :=
  match v with
  | VInt z => Ok z
  | VBool b => Ok (Z_of_bool b)
  | _ => Raise TypeError
  end.

Definition generate_arithmetic_operand (fuel : nat) (operation : string)
    (min_number max_number : Z) (acceptable : Z → Z → bool)
    (previous_result : option value) (r : rng) : res (Z * rng) :=
  let fallback :=
    '(number, r') ← randint min_number max_number r;
    redraw_while_zero fuel min_number max_number number r' in
  match previous_result with
  | Some v =>
      if String.eqb operation "divide" then
        p ← int_operand v;
        let possibilities :=
          List.filter (possibility acceptable p) (range min_number (max_number + 1)) in
        match possibilities with
        | [] => fallback
        | _ => choice possibilities r
        end
      else fallback
  | None => fallback
  end.

(** *** apply_nback_matching (with [debug=False]) *)

(** The key of the current stimulus and the key of the history a
    modality is matched against. *)
Definition current_key (modality : string) : string :=
  if in_list modality ["visvis"; "visaudio"; "image"] then "vis"
  else if in_list modality ["audiovis"] then "audio"
  else modality.

Definition back_key (modality : string) : string :=
  if in_list modality ["visvis"; "audiovis"; "image"] then "vis"
  else if in_list modality ["visaudio"] then "audio"
  else modality.

(** The search [for i in interference: if ... : back = n_back + i; break],
    answering the new [back] if a candidate is accepted. *)
Fixpoint find_interference (h : gmap string (list value)) (back_data : string)
    (trial_number n_back : Z) (interference : list Z) : res (option Z) :=
  match interference with
  | [] => mret None
  | i :: rest =>
      if trial_number - (n_back + i) - 1 >=? 0 then
        col ← dget h back_data;
        a ← getitem col (trial_number - (n_back + i) - 1);
        b ← getitem col (trial_number - n_back - 1);
        if negb (py_eq a b) then mret (Some (n_back + i))
        else find_interference h back_data trial_number n_back rest
      else find_interference h back_data trial_number n_back rest
  end.

(** [positions.index(v)] *)
Fixpoint index_of_value (positions : list value) (v : value) : res Z :=
  match positions with
  | [] => Raise ValueError
  | p :: rest =>
      if py_eq p v then Ok 0
      else i ← index_of_value rest v; mret (i + 1)
  end.

(** The collision check of multi-stimulus mode for a position modality. *)
Definition settle_positions (stim : stimuli) (positions : list value) (multi_mode : Z)
    (modality current : string) (matching_stim : value)
  : res (stimuli * list value) :=
  own ← last_digit modality;
  let potential_conflicts :=
    List.filter (λ i, negb (i =? own)) (range 1 (multi_mode + 1)) in
  conflict_positions ← map_res (λ i, getitem positions (i - 1)) potential_conflicts;
  '(stim1, positions1) ←
    (if existsb (λ p, py_eq p matching_stim) conflict_positions then
       i ← index_of_value positions matching_stim;
       moved ← oget_res stim current;
       positions' ← setitem positions i moved;
       mret (oset stim ("position" +:+ pretty (i + 1)) moved, positions')
     else mret (stim, positions));
  slot ← last_digit current;
  positions2 ← setitem positions1 (slot - 1) matching_stim;
  mret (stim1, positions2).

(** [if back: ...]: copy the value recorded [back] trials ago. *)
Definition apply_match (h : gmap string (list value)) (trial_number : Z)
    (multi_mode : Z) (modality : string) (back : option Z)
    (s : stimuli * list value) : res (stimuli * list value) :=
  let '(stim, positions) := s in
  match back with
  | None => mret (stim, positions)
  | Some b =>
      if b =? 0 then mret (stim, positions)
      else
        let nback_trial := trial_number - b - 1 in
        col ← dget h (back_key modality);
        matching_stim ← getitem col nback_trial;
        '(stim1, positions1) ←
          (if (1 <? multi_mode) && String.prefix "position" modality then
             settle_positions stim positions multi_mode modality
               (current_key modality) matching_stim
           else mret (stim, positions));
        mret (oset stim1 (current_key modality) matching_stim, positions1)
  end.

(** The choice of [back] under interference: the candidates, shuffled,
    and the first accepted one. *)
Definition choose_interference (h : gmap string (list value)) (trial_number n_back : Z)
    (modality : string) (r : rng) : res (option Z * rng) :=
  let interference := [-1; 1; n_back] in
  let interference := if n_back <? 3 then drop 1 interference else interference in
  '(interference, r') ← shuffle interference r;
  found ← find_interference h (back_key modality) trial_number n_back interference;
  let back := match found with Some b => b | None => n_back end in
  mret (if back =? n_back then None else Some back, r').

(** One round of [for mod in modalities]. *)
Definition match_modality (h : gmap string (list value)) (trial_number n_back : Z)
    (chance_guaranteed_match chance_interference : float) (multi_mode : Z)
    (modality : string) (s : stimuli * list value * rng)
  : res (stimuli * list value * rng) :=
  let '(stim, positions, r) := s in
  if String.eqb modality "arithmetic" then mret s
  else
    let '(r1, ra) := random r in
    let '(r2, rb) := random ra in
    let r2 := if 1 <? multi_mode then (1.5 * r2)%float else r2 in
    '(back, rc) ←
      (if PrimFloat.ltb r1 chance_guaranteed_match then mret (Some n_back, rb)
       else if PrimFloat.ltb r2 chance_interference && (1 <? n_back) then
         choose_interference h trial_number n_back modality rb
       else mret (None, rb));
    '(stim', positions') ←
      apply_match h trial_number multi_mode modality back (stim, positions);
    mret (stim', positions', rc).

(** One round of the reversal loop [for i in range(multi_mode)]. *)
Definition reversal_body (h : gmap string (list value)) (trial_number n_back : Z)
    (multi_mode offset : Z) (kind : string) (i : Z) (s : stimuli * list value)
  : res (stimuli * list value) :=
  let '(stim, positions) := s in
  col ← dget h (kind +:+ pretty ((i + offset) mod multi_mode + 1));
  v ← getitem col (trial_number - n_back - 1);
  let stim' := oset stim (kind +:+ pretty (i + 1)) v in
  if String.eqb kind "position" then
    positions' ← setitem positions i v; mret (stim', positions')
  else mret (stim', positions).

(** The multi-stimulus reversal at the end of [apply_nback_matching]. *)
Definition reversal (h : gmap string (list value)) (trial_number n_back : Z)
    (modalities : list string) (chance_interference : float) (multi_mode : Z)
    (s : stimuli * list value * rng) : res (stimuli * list value * rng) :=
  let '(stim, positions, r) := s in
  if 1 <? multi_mode then
    let '(x, r0) := random r in
    if PrimFloat.ltb x (chance_interference / 3) then
      let '(kind, r1) :=
        if in_list "vis1" modalities then
          let '(y, r') := random r0 in
          (if PrimFloat.ltb y 0.5 then "vis" else "position", r')
        else ("position", r0) in
      '(offset, r2) ← choice (range 1 multi_mode) r1;
      '(stim', positions') ←
        for_each (reversal_body h trial_number n_back multi_mode offset kind)
          (range 0 multi_mode) (stim, positions);
      mret (stim', positions', r2)
    else mret (stim, positions, r0)
  else mret s.

Definition apply_nback_matching (current_stim : stimuli)
    (session_history : gmap string (list value)) (trial_number n_back : Z)
    (modalities : list string) (chance_guaranteed_match chance_interference : float)
    (multi_mode : Z) (r : rng) : res (stimuli * rng) :=
  if trial_number <=? n_back then mret (current_stim, r)
  else
    let positions :=
      (λ i, oget_default current_stim ("position" +:+ pretty i) (VInt 0))
        <$> range 1 5 in
    s ← for_each
          (match_modality session_history trial_number n_back
             chance_guaranteed_match chance_interference multi_mode)
          modalities (current_stim, positions, r);
    '(stim, _, r') ← reversal session_history trial_number n_back modalities
                       chance_interference multi_mode s;
    mret (stim, r').

(** *** apply_static_defaults *)

Definition apply_static_defaults (stim : stimuli) (modalities : list string)
    (default_color : value) : stimuli :=
  let stim := if in_list "color" modalities then stim
              else oset stim "color" default_color in
  let stim := if in_list "position1" modalities then stim
              else oset stim "position1" (VInt 0) in
  if existsb (λ m, in_list m modalities) ["visvis"; "arithmetic"; "image"] then stim
  else oset stim "vis" (VInt 0).

(** *** choose_arithmetic_operation *)

Definition choose_arithmetic_operation
    (use_addition use_subtraction use_multiplication use_division : bool) (r : rng)
  : res (string * rng) :=
  let operations :=
    (if use_addition then ["add"] else [])
    ++ (if use_subtraction then ["subtract"] else [])
    ++ (if use_multiplication then ["multiply"] else [])
    ++ (if use_division then ["divide"] else []) in
  let operations := match operations with [] => ["add"] | _ => operations end in
  choice operations r.

(** Vocabulary for stating what the generator produces: entry [i] of [l]
    equals the entry [n] positions earlier, and how many indices of
    [lo .. lo+len-1] satisfy a test. *)
Definition matches_at (n : nat) (l : list Z) (i : nat) : bool :=
  bool_decide (l !! i = l !! (i - n)%nat).

Definition count_in (P : nat → bool) (lo len : nat) : nat :=
  length (List.filter P (seq lo len)).

(** Matches among the post-warm-up entries (indices [n .. length l - 1]). *)
Definition match_count (n : nat) (l : list Z) : nat :=
  count_in (matches_at n l) n (length l - n).

(** Indices that are a match in both sequences. *)
Definition both_count (n : nat) (p a : list Z) : nat :=
  count_in (λ i, matches_at n p i && matches_at n a i) n (length p - n).

(** Every entry is one of the eight stimuli. *)
Definition in_1_8 (l : list Z) : Prop := Forall (λ v, 1 ≤ v ≤ 8) l.

(** Vocabulary for the interference step: the offsets tried (relative to
    [n_back]), and whether offset [i] is accepted, that is, the trial
    [n_back + i] back exists and its value differs from the value
    [n_back] trials back. *)
Definition interference_candidates (n_back : Z) : list Z :=
  if n_back <? 3 then [1; n_back] else [-1; 1; n_back].

Definition lure_ok (col : list value) (trial_number n_back i : Z) : bool :=
  (0 <=? trial_number - (n_back + i) - 1)
  && match col !! Z.to_nat (trial_number - (n_back + i) - 1),
           col !! Z.to_nat (trial_number - n_back - 1) with
     | Some a, Some b => negb (py_eq a b)
     | _, _ => false
     end.

(** What the interference step does to a channel, given the draw [rb]
    the shuffle starts from: the candidates are shuffled; if none is
    accepted the step changes nothing; otherwise the first accepted one,
    [i], gives the value [v] recorded [n_back + i] trials back, which the
    step writes to the channel (outside the collision handling of
    multi-stimulus positions it does nothing else). [step] is the round
    of the loop over the modalities. *)
Definition interference_outcome (col : list value) (t n multi_mode : Z)
    (modality : string) (stim : stimuli) (positions : list value) (rb : rng)
    (step : res (stimuli * list value * rng)) : Prop :=
  ∃ shuffled r',
    shuffle (interference_candidates n) rb = Ok (shuffled, r')
    ∧ shuffled ≡ₚ interference_candidates n
    ∧ ((Forall (λ i, lure_ok col t n i = false) shuffled
        ∧ step = Ok (stim, positions, r'))
       ∨ (∃ pre i post v,
            shuffled = pre ++ i :: post
            ∧ Forall (λ j, lure_ok col t n j = false) pre
            ∧ lure_ok col t n i = true
            ∧ col !! Z.to_nat (t - (n + i) - 1) = Some v
            ∧ (∀ stim' positions' r'',
                 step = Ok (stim', positions', r'') →
                 oget stim' (current_key modality) = Some v ∧ r'' = r')
            ∧ (multi_mode ≤ 1 ∨ String.prefix "position" modality = false →
               step = Ok (oset stim (current_key modality) v, positions, r')))).

(** A random source given by a finite list of raw outcomes (zero after
    its end), for running the generators on concrete draws. *)
Definition rng_of_list (l : list N) : rng :=
  {| tape := λ i, nth i l 0%N; variates := λ _, 0%float; cursor := 0 |}.

(** Draws that make a 2-back session of 20 trials succeed at once: four
    warm-up draws, eighteen position draws, eighteen audio draws. *)
Definition jaeggi_demo_rng : rng :=
  rng_of_list
    [0; 2; 1; 3;
     0; 1; 0; 1; 0; 1; 1; 2; 2; 3; 3; 4; 4; 5; 5; 6; 6; 7;
     3; 4; 4; 5; 4; 5; 4; 5; 4; 5; 5; 6; 6; 7; 7; 0; 0; 1]%N.

(** The sixth trial of a 2-back audio session whose history is
    7, 5, 1, 1, 2: the draws are [r1 = 0.5] (no guaranteed match),
    [r2 = 0.0] (interference) and one draw for the shuffle. *)
Definition lure_history : gmap string (list value) :=
  {[ "audio" := [VInt 7; VInt 5; VInt 1; VInt 1; VInt 2] ]}.

Definition lure_rng : rng := rng_of_list [4503599627370496; 0; 0]%N.

End StimulusGenerator.


(** ** Match checker and score engine (domain/match_checker.py) *)

Module MatchChecker.

(** A session history: for every key the list of recorded values. *)
Abbreviation history := (gmap string (list value)).

Definition len {A : Type} (l : list A) : Z := Z.of_nat (length l).

(** The body shared by [check_position_match], [check_audio_match],
    [check_color_match] and [check_image_match]: the four functions are
    the same text up to the key they read. *)
Definition check_key_match (h : history) (trial_number n_back : Z) (key : string)
  : res bool :=
  if trial_number <=? n_back then mret false
  else
    let current_idx := trial_number - 1 in
    let nback_idx := trial_number - n_back - 1 in
    if nback_idx <? 0 then mret false
    else
      col ← dget h key;
      if current_idx >=? len col then mret false
      else
        a ← getitem col current_idx;
        b ← getitem col nback_idx;
        mret (py_eq a b).

Definition check_position_match (h : history) (trial_number n_back : Z)
    (position_key : string) : res bool :=
  check_key_match h trial_number n_back position_key.

Definition check_audio_match (h : history) (trial_number n_back : Z)
    (audio_key : string) : res bool :=
  check_key_match h trial_number n_back audio_key.

Definition check_color_match (h : history) (trial_number n_back : Z) : res bool :=
  check_key_match h trial_number n_back "color".

Definition check_image_match (h : history) (trial_number n_back : Z) : res bool :=
  check_key_match h trial_number n_back "image".

(** [h[now_key][current_idx] == h[back_key][nback_idx]] *)
Definition cross_match (h : history) (now_key back_key : string)
    (current_idx nback_idx : Z) : res bool :=
  now ← dget h now_key;
  a ← getitem now current_idx;
  back ← dget h back_key;
  b ← getitem back nback_idx;
  mret (py_eq a b).

Definition check_combination_match (h : history) (trial_number n_back : Z)
    (combination_type : string) : res bool :=
  if trial_number <=? n_back then mret false
  else
    let current_idx := trial_number - 1 in
    let nback_idx := trial_number - n_back - 1 in
    if nback_idx <? 0 then mret false
    else if String.eqb combination_type "visvis" then
      cross_match h "vis" "vis" current_idx nback_idx
    else if String.eqb combination_type "visaudio" then
      cross_match h "vis" "audio" current_idx nback_idx
    else if String.eqb combination_type "audiovis" then
      cross_match h "audio" "vis" current_idx nback_idx
    else mret false.

Definition check_arithmetic_match (h : history) (trial_number n_back : Z)
    (player_answer : value) : res bool :=
  if trial_number <=? n_back then mret false
  else
    let nback_idx := trial_number - n_back - 1 in
    let current_idx := trial_number - 1 in
    if nback_idx <? 0 then mret false
    else
      numbers ← dget h "numbers";
      if nback_idx >=? len numbers then mret false
      else if current_idx >=? len numbers then mret false
      else
        nback_number ← getitem numbers nback_idx;
        current_number ← getitem numbers current_idx;
        operations ← dget h "operation";
        operation ← getitem operations current_idx;
        if py_eq operation (VStr "add") then
          expected ← py_add nback_number current_number;
          mret (py_eq player_answer expected)
        else if py_eq operation (VStr "subtract") then
          expected ← py_sub nback_number current_number;
          mret (py_eq player_answer expected)
        else if py_eq operation (VStr "multiply") then
          expected ← py_mul nback_number current_number;
          mret (py_eq player_answer expected)
        else if py_eq operation (VStr "divide") then
          if py_eq current_number (VInt 0) then mret false
          else
            x ← py_float nback_number;
            y ← py_float current_number;
            if PrimFloat.eqb y 0 then Raise ZeroDivisionError
            else
              let expected := (x / y)%float in
              answer ← float_operand player_answer;
              mret (PrimFloat.ltb (PrimFloat.abs (answer - expected)) 0.01)
        else mret false.

(** [(hits / possible_hits * 100) if possible_hits > 0 else 0] *)
Definition percentage_of (hits possible_hits : Z) : res value :=
  if 0 <? possible_hits then
    q ← truediv hits possible_hits;
    mret (VFloat (q * 100)%float)
  else mret (VInt 0).

(** The branches of [calculate_modality_score] that read one key: the
    match and the player's input at the current trial, both left [False]
    when the current index is past the end of the key's list. *)
Definition keyed_outcome (h : history) (key input_key : string)
    (current_idx nback_idx : Z) : res (value * value) :=
  col ← dget h key;
  if current_idx <? len col then
    a ← getitem col current_idx;
    b ← getitem col nback_idx;
    player_input ← getitem (dget_default h input_key [VBool false]) current_idx;
    mret (VBool (py_eq a b), player_input)
  else mret (VBool false, VBool false).

(** One round of the loop of [calculate_modality_score]. *)
Definition modality_trial (h : history) (n_back : Z) (modality : string)
    (trial : Z) (acc : Z * Z) : res (Z * Z) :=
  let '(hits, possible_hits) := acc in
  if trial <=? n_back then mret acc
  else
    let current_idx := trial - 1 in
    let nback_idx := trial - n_back - 1 in
    if nback_idx <? 0 then mret acc
    else
      '(is_match, player_input) ←
        (if String.prefix "position" modality then
           keyed_outcome h modality (String.append modality "_input")
             current_idx nback_idx
         else if in_list modality ["audio"; "audio2"] then
           keyed_outcome h modality (String.append modality "_input")
             current_idx nback_idx
         else if String.eqb modality "color" then
           keyed_outcome h "color" "color_input" current_idx nback_idx
         else if String.eqb modality "image" then
           keyed_outcome h "image" "image_input" current_idx nback_idx
         else if in_list modality ["visvis"; "visaudio"; "audiovis"] then
           player_input ←
             getitem (dget_default h (String.append modality "_input") [VBool false])
               current_idx;
           m ← check_combination_match h trial n_back modality;
           mret (VBool m, player_input)
         else mret (VBool false, VBool false));
      mret (if py_eq is_match player_input then hits + 1 else hits,
            possible_hits + 1).

Definition calculate_modality_score (h : history) (n_back : Z) (modality : string)
    (num_trials : Z) : res (Z * Z * value) :=
  '(hits, possible_hits) ←
    for_each (modality_trial h n_back modality) (range 1 (num_trials + 1)) (0, 0);
  percentage ← percentage_of hits possible_hits;
  mret (hits, possible_hits, percentage).

(** One round of the loop of [calculate_arithmetic_score]. *)
Definition arithmetic_trial (h : history) (n_back : Z) (trial : Z) (acc : Z * Z)
  : res (Z * Z) :=
  let '(hits, possible_hits) := acc in
  if trial <=? n_back then mret acc
  else
    let current_idx := trial - 1 in
    if current_idx >=? len (dget_default h "arithmetic_input" []) then mret acc
    else
      answers ← dget h "arithmetic_input";
      player_answer ← getitem answers current_idx;
      is_correct ← check_arithmetic_match h trial n_back player_answer;
      mret (if (is_correct : bool) then hits + 1 else hits, possible_hits + 1).

Definition calculate_arithmetic_score (h : history) (n_back num_trials : Z)
  : res (Z * Z * value) :=
  '(hits, possible_hits) ←
    for_each (arithmetic_trial h n_back) (range 1 (num_trials + 1)) (0, 0);
  percentage ← percentage_of hits possible_hits;
  mret (hits, possible_hits, percentage).

(** The keys every score map starts from. *)
Definition score_keys : list string :=
  ["position1"; "position2"; "position3"; "position4";
   "audio"; "audio2"; "color"; "image";
   "visvis"; "visaudio"; "audiovis"; "arithmetic";
   "vis1"; "vis2"; "vis3"; "vis4"].

(** One round of the loop over the active modalities. *)
Definition score_modality (h : history) (n_back num_trials : Z) (modality : string)
    (acc : gmap string value * Z * Z) : res (gmap string value * Z * Z) :=
  let '(scores, total_hits, total_possible) := acc in
  '(hits, possible, percentage) ←
    (if String.eqb modality "arithmetic" then
       calculate_arithmetic_score h n_back num_trials
     else calculate_modality_score h n_back modality num_trials);
  mret (<[modality := percentage]> scores, total_hits + hits, total_possible + possible).

Definition calculate_session_score (h : history) (n_back : Z)
    (modalities : list string) (num_trials : Z) : res (gmap string value) :=
  let scores0 : gmap string value :=
    foldl (λ scores key, <[key := VFloat 0]> scores) ∅ score_keys in
  '(scores, total_hits, total_possible) ←
    for_each (score_modality h n_back num_trials) modalities (scores0, 0, 0);
  if 0 <? total_possible then
    q ← truediv total_hits total_possible;
    mret (<["overall" := VFloat (q * 100)%float]> scores)
  else mret (<["overall" := VFloat 0]> scores).

(** The result of an exact operation on two int operands. *)
Definition exact_result (operation : string) (nback_number current_number : Z)
  : option Z :=
  if String.eqb operation "add" then Some (nback_number + current_number)
  else if String.eqb operation "subtract" then Some (nback_number - current_number)
  else if String.eqb operation "multiply" then Some (nback_number * current_number)
  else None.

(** Two trials of a 1-back arithmetic session: operand 10, then operand 4
    under [divide]. *)
Definition division_demo : history :=
  {[ "numbers" := [VInt 10; VInt 4];
     "operation" := [VStr "add"; VStr "divide"] ]}.

(** A history of one trial, shorter than the trial number asked for. *)
Definition short_demo : history :=
  {[ "vis" := [VInt 3]; "audio" := [VInt 3] ]}.

End MatchChecker.

(** ** Game session (domain/game_session.py) *)

Module GameSession.
Import StimulusGenerator MatchChecker.

(** The callbacks a session invokes, as the trace records them. *)
Inductive event : Type :=
  | StimulusGenerated (stim : stimuli)
  | TrialStart
  | SessionEnd (scores : gmap string value) (cancelled : bool)
  | FeedbackShow
  | StimulusHide.

(** The mode object (models/mode.py is not part of the sources): the
    attributes the session reads and writes. [multi], [selfpaced], [crab]
    and [modalities] are [flags[mode][...]] and [modalities[mode]] of the
    mode the session runs in; [selfpaced] is the truth value of the flag. *)
Record Mode : Type := MkMode {
  multi : Z;
  selfpaced : bool;
  crab : Z;
  modalities : list string;
  back : Z;
  num_trials_total : Z;
  ticks_per_trial : Z;
  tick : Z;
  session_number : Z;
  trial_number : Z;
  m_started : bool;
  m_paused : bool;
  m_sound_mode : string;
  m_sound2_mode : string;
  variable_list : list Z;
  bt_sequence : list (list Z);
  show_missed : bool;
  m_trial_starttime : float;
  inputs : gmap string bool;
  input_rts : gmap string float;
  current_stim : stimuli;
  current_operation : string
}.

Definition set_tick (v : Z) (m : Mode) : Mode :=
  MkMode (multi m) (selfpaced m) (crab m) (modalities m) (back m)
    (num_trials_total m) (ticks_per_trial m) v (session_number m)
    (trial_number m) (m_started m) (m_paused m) (m_sound_mode m)
    (m_sound2_mode m) (variable_list m) (bt_sequence m) (show_missed m)
    (m_trial_starttime m) (inputs m) (input_rts m) (current_stim m)
    (current_operation m).
Definition set_session_number (v : Z) (m : Mode) : Mode :=
  MkMode (multi m) (selfpaced m) (crab m) (modalities m) (back m)
    (num_trials_total m) (ticks_per_trial m) (tick m) v (trial_number m)
    (m_started m) (m_paused m) (m_sound_mode m) (m_sound2_mode m)
    (variable_list m) (bt_sequence m) (show_missed m) (m_trial_starttime m)
    (inputs m) (input_rts m) (current_stim m) (current_operation m).
Definition set_trial_number (v : Z) (m : Mode) : Mode :=
  MkMode (multi m) (selfpaced m) (crab m) (modalities m) (back m)
    (num_trials_total m) (ticks_per_trial m) (tick m) (session_number m) v
    (m_started m) (m_paused m) (m_sound_mode m) (m_sound2_mode m)
    (variable_list m) (bt_sequence m) (show_missed m) (m_trial_starttime m)
    (inputs m) (input_rts m) (current_stim m) (current_operation m).
Definition set_m_started (v : bool) (m : Mode) : Mode :=
  MkMode (multi m) (selfpaced m) (crab m) (modalities m) (back m)
    (num_trials_total m) (ticks_per_trial m) (tick m) (session_number m)
    (trial_number m) v (m_paused m) (m_sound_mode m) (m_sound2_mode m)
    (variable_list m) (bt_sequence m) (show_missed m) (m_trial_starttime m)
    (inputs m) (input_rts m) (current_stim m) (current_operation m).
Definition set_m_paused (v : bool) (m : Mode) : Mode :=
  MkMode (multi m) (selfpaced m) (crab m) (modalities m) (back m)
    (num_trials_total m) (ticks_per_trial m) (tick m) (session_number m)
    (trial_number m) (m_started m) v (m_sound_mode m) (m_sound2_mode m)
    (variable_list m) (bt_sequence m) (show_missed m) (m_trial_starttime m)
    (inputs m) (input_rts m) (current_stim m) (current_operation m).
Definition set_m_sound_mode (v : string) (m : Mode) : Mode :=
  MkMode (multi m) (selfpaced m) (crab m) (modalities m) (back m)
    (num_trials_total m) (ticks_per_trial m) (tick m) (session_number m)
    (trial_number m) (m_started m) (m_paused m) v (m_sound2_mode m)
    (variable_list m) (bt_sequence m) (show_missed m) (m_trial_starttime m)
    (inputs m) (input_rts m) (current_stim m) (current_operation m).
Definition set_m_sound2_mode (v : string) (m : Mode) : Mode :=
  MkMode (multi m) (selfpaced m) (crab m) (modalities m) (back m)
    (num_trials_total m) (ticks_per_trial m) (tick m) (session_number m)
    (trial_number m) (m_started m) (m_paused m) (m_sound_mode m) v
    (variable_list m) (bt_sequence m) (show_missed m) (m_trial_starttime m)
    (inputs m) (input_rts m) (current_stim m) (current_operation m).
Definition set_variable_list (v : list Z) (m : Mode) : Mode :=
  MkMode (multi m) (selfpaced m) (crab m) (modalities m) (back m)
    (num_trials_total m) (ticks_per_trial m) (tick m) (session_number m)
    (trial_number m) (m_started m) (m_paused m) (m_sound_mode m)
    (m_sound2_mode m) v (bt_sequence m) (show_missed m) (m_trial_starttime m)
    (inputs m) (input_rts m) (current_stim m) (current_operation m).
Definition set_bt_sequence (v : list (list Z)) (m : Mode) : Mode :=
  MkMode (multi m) (selfpaced m) (crab m) (modalities m) (back m)
    (num_trials_total m) (ticks_per_trial m) (tick m) (session_number m)
    (trial_number m) (m_started m) (m_paused m) (m_sound_mode m)
    (m_sound2_mode m) (variable_list m) v (show_missed m) (m_trial_starttime
    m) (inputs m) (input_rts m) (current_stim m) (current_operation m).
Definition set_show_missed (v : bool) (m : Mode) : Mode :=
  MkMode (multi m) (selfpaced m) (crab m) (modalities m) (back m)
    (num_trials_total m) (ticks_per_trial m) (tick m) (session_number m)
    (trial_number m) (m_started m) (m_paused m) (m_sound_mode m)
    (m_sound2_mode m) (variable_list m) (bt_sequence m) v (m_trial_starttime
    m) (inputs m) (input_rts m) (current_stim m) (current_operation m).
Definition set_m_trial_starttime (v : float) (m : Mode) : Mode :=
  MkMode (multi m) (selfpaced m) (crab m) (modalities m) (back m)
    (num_trials_total m) (ticks_per_trial m) (tick m) (session_number m)
    (trial_number m) (m_started m) (m_paused m) (m_sound_mode m)
    (m_sound2_mode m) (variable_list m) (bt_sequence m) (show_missed m) v
    (inputs m) (input_rts m) (current_stim m) (current_operation m).
Definition set_inputs (v : gmap string bool) (m : Mode) : Mode :=
  MkMode (multi m) (selfpaced m) (crab m) (modalities m) (back m)
    (num_trials_total m) (ticks_per_trial m) (tick m) (session_number m)
    (trial_number m) (m_started m) (m_paused m) (m_sound_mode m)
    (m_sound2_mode m) (variable_list m) (bt_sequence m) (show_missed m)
    (m_trial_starttime m) v (input_rts m) (current_stim m) (current_operation
    m).
Definition set_input_rts (v : gmap string float) (m : Mode) : Mode :=
  MkMode (multi m) (selfpaced m) (crab m) (modalities m) (back m)
    (num_trials_total m) (ticks_per_trial m) (tick m) (session_number m)
    (trial_number m) (m_started m) (m_paused m) (m_sound_mode m)
    (m_sound2_mode m) (variable_list m) (bt_sequence m) (show_missed m)
    (m_trial_starttime m) (inputs m) v (current_stim m) (current_operation m).
Definition set_current_stim (v : stimuli) (m : Mode) : Mode :=
  MkMode (multi m) (selfpaced m) (crab m) (modalities m) (back m)
    (num_trials_total m) (ticks_per_trial m) (tick m) (session_number m)
    (trial_number m) (m_started m) (m_paused m) (m_sound_mode m)
    (m_sound2_mode m) (variable_list m) (bt_sequence m) (show_missed m)
    (m_trial_starttime m) (inputs m) (input_rts m) v (current_operation m).
Definition set_current_operation (v : string) (m : Mode) : Mode :=
  MkMode (multi m) (selfpaced m) (crab m) (modalities m) (back m)
    (num_trials_total m) (ticks_per_trial m) (tick m) (session_number m)
    (trial_number m) (m_started m) (m_paused m) (m_sound_mode m)
    (m_sound2_mode m) (variable_list m) (bt_sequence m) (show_missed m)
    (m_trial_starttime m) (inputs m) (input_rts m) (current_stim m) v.

(** The statistics tracker (models/stats.py): the part the session uses. *)
Record Stats : Type := MkStats {
  session : history;
  sessions_today : Z
}.

Definition set_session (v : history) (st : Stats) : Stats :=
  MkStats v (sessions_today st).
Definition set_sessions_today (v : Z) (st : Stats) : Stats :=
  MkStats (session st) v.

(** The configuration object: the attributes the session reads.
    [ARITHMETIC_ACCEPTABLE_DECIMALS] is held as the test it is used for
    (see [possibility]); [VISUAL_COLORS] is [None] when the attribute is
    absent. *)
Record Cfg : Type := MkCfg {
  MULTI_MODE : string;
  VARIABLE_NBACK : bool;
  JAEGGI_MODE : bool;
  ARITHMETIC_USE_ADDITION : bool;
  ARITHMETIC_USE_SUBTRACTION : bool;
  ARITHMETIC_USE_MULTIPLICATION : bool;
  ARITHMETIC_USE_DIVISION : bool;
  ARITHMETIC_USE_NEGATIVES : bool;
  ARITHMETIC_MAX_NUMBER : Z;
  ARITHMETIC_ACCEPTABLE_DECIMALS : Z → Z → bool;
  CHANCE_OF_GUARANTEED_MATCH : float;
  CHANCE_OF_INTERFERENCE : float;
  VISUAL_COLORS : option (list value)
}.


(** The session object, with the registered callbacks (whether each
    handler is set), the random source it draws from and the trace of the
    callbacks it has invoked. *)
Record GameSession : Type := MkGameSession {
  mode : Mode;
  stats : Stats;
  cfg : Cfg;
  on_stimulus_generated : bool;
  on_trial_start : bool;
  on_trial_end : bool;
  on_session_end : bool;
  on_feedback_show : bool;
  on_stimulus_hide : bool;
  started : bool;
  paused : bool;
  trial_starttime : float;
  sound_mode : string;
  sound2_mode : string;
  rng_state : rng;
  events : list event
}.

Definition set_mode (v : Mode) (s : GameSession) : GameSession :=
  MkGameSession v (stats s) (cfg s) (on_stimulus_generated s) (on_trial_start
    s) (on_trial_end s) (on_session_end s) (on_feedback_show s)
    (on_stimulus_hide s) (started s) (paused s) (trial_starttime s)
    (sound_mode s) (sound2_mode s) (rng_state s) (events s).
Definition set_stats (v : Stats) (s : GameSession) : GameSession :=
  MkGameSession (mode s) v (cfg s) (on_stimulus_generated s) (on_trial_start
    s) (on_trial_end s) (on_session_end s) (on_feedback_show s)
    (on_stimulus_hide s) (started s) (paused s) (trial_starttime s)
    (sound_mode s) (sound2_mode s) (rng_state s) (events s).
Definition set_started (v : bool) (s : GameSession) : GameSession :=
  MkGameSession (mode s) (stats s) (cfg s) (on_stimulus_generated s)
    (on_trial_start s) (on_trial_end s) (on_session_end s) (on_feedback_show
    s) (on_stimulus_hide s) v (paused s) (trial_starttime s) (sound_mode s)
    (sound2_mode s) (rng_state s) (events s).
Definition set_paused (v : bool) (s : GameSession) : GameSession :=
  MkGameSession (mode s) (stats s) (cfg s) (on_stimulus_generated s)
    (on_trial_start s) (on_trial_end s) (on_session_end s) (on_feedback_show
    s) (on_stimulus_hide s) (started s) v (trial_starttime s) (sound_mode s)
    (sound2_mode s) (rng_state s) (events s).
Definition set_trial_starttime (v : float) (s : GameSession) : GameSession :=
  MkGameSession (mode s) (stats s) (cfg s) (on_stimulus_generated s)
    (on_trial_start s) (on_trial_end s) (on_session_end s) (on_feedback_show
    s) (on_stimulus_hide s) (started s) (paused s) v (sound_mode s)
    (sound2_mode s) (rng_state s) (events s).
Definition set_sound_mode (v : string) (s : GameSession) : GameSession :=
  MkGameSession (mode s) (stats s) (cfg s) (on_stimulus_generated s)
    (on_trial_start s) (on_trial_end s) (on_session_end s) (on_feedback_show
    s) (on_stimulus_hide s) (started s) (paused s) (trial_starttime s) v
    (sound2_mode s) (rng_state s) (events s).
Definition set_sound2_mode (v : string) (s : GameSession) : GameSession :=
  MkGameSession (mode s) (stats s) (cfg s) (on_stimulus_generated s)
    (on_trial_start s) (on_trial_end s) (on_session_end s) (on_feedback_show
    s) (on_stimulus_hide s) (started s) (paused s) (trial_starttime s)
    (sound_mode s) v (rng_state s) (events s).
Definition set_rng_state (v : rng) (s : GameSession) : GameSession :=
  MkGameSession (mode s) (stats s) (cfg s) (on_stimulus_generated s)
    (on_trial_start s) (on_trial_end s) (on_session_end s) (on_feedback_show
    s) (on_stimulus_hide s) (started s) (paused s) (trial_starttime s)
    (sound_mode s) (sound2_mode s) v (events s).
Definition set_events (v : list event) (s : GameSession) : GameSession :=
  MkGameSession (mode s) (stats s) (cfg s) (on_stimulus_generated s)
    (on_trial_start s) (on_trial_end s) (on_session_end s) (on_feedback_show
    s) (on_stimulus_hide s) (started s) (paused s) (trial_starttime s)
    (sound_mode s) (sound2_mode s) (rng_state s) v.

Definition upd_mode (f : Mode → Mode) (s : GameSession) : GameSession :=
  set_mode (f (mode s)) s.

Definition upd_stats (f : Stats → Stats) (s : GameSession) : GameSession :=
  set_stats (f (stats s)) s.

(** [if self.on_x: self.on_x(...)] *)
Definition emit (registered : bool) (e : event) (s : GameSession) : GameSession :=
  if registered then set_events (events s ++ [e]) s else s.

(** *** Stats.initialize_session and Stats.save_input *)

Definition initialize_session : history :=
  let named :=
    ["position1"; "position2"; "position3"; "position4";
     "vis1"; "vis2"; "vis3"; "vis4"; "color"; "image"; "audio"; "audio2"] in
  let h : history :=
    foldl (λ h name,
             <[name +:+ "_rt" := []]> (<[name +:+ "_input" := []]> (<[name := []]> h)))
          ∅ named in
  foldl (λ h name, <[name := []]> h) h
    ["vis"; "numbers"; "operation"; "visvis_input"; "visaudio_input";
     "audiovis_input"; "arithmetic_input"; "visvis_rt"; "visaudio_rt"; "audiovis_rt"].

(** [session[key].append(v)] *)
Definition append_to (key : string) (v : value) (h : history) : res history :=
  col ← dget h key; mret (<[key := col ++ [v]]> h).

Definition save_stim_item (kv : string * value) (h : history) : res history :=
  let '(k, v) := kv in
  h1 ← (if String.eqb k "number" then append_to "numbers" v h else append_to k v h);
  if String.eqb k "vis" then append_to "image" v h1 else mret h1.

(** [Stats.save_input(mode)], called without an answer label. The input
    flags and reaction times go to distinct lists, one per key, so the
    order in which the two dicts are visited does not show. *)
Definition save_input (m : Mode) (h : history) : res history :=
  h1 ← for_each save_stim_item (current_stim m) h;
  h2 ← for_each (λ kv, append_to (kv.1 +:+ "_input") (VBool kv.2))
         (map_to_list (inputs m)) h1;
  h3 ← for_each (λ kv, append_to (kv.1 +:+ "_rt") (VFloat kv.2))
         (map_to_list (input_rts m)) h2;
  h4 ← append_to "operation" (VStr (current_operation m)) h3;
  append_to "arithmetic_input" (VInt 0) h4.

(** *** GameSession *)

(** [_reset_input]: every key of [inputs] gets [False] and a reaction
    time of [0.0]. *)
Definition _reset_input (s : GameSession) : GameSession :=
  upd_mode (λ m,
    set_input_rts (((λ _, 0%float) <$> inputs m) ∪ input_rts m)
      (set_inputs ((λ _, false) <$> inputs m) m)) s.

(** [end(cancelled)] *)
Definition end_ (cancelled : bool) (s : GameSession) : res GameSession :=
  let s := if cancelled
           then upd_mode (λ m, set_session_number (session_number m - 1) m) s
           else upd_stats (λ st, set_sessions_today (sessions_today st + 1) st) s in
  let s := set_started false s in
  let s := upd_mode (set_m_started false) s in
  let s := set_paused false s in
  let s := upd_mode (set_m_paused false) s in
  let s := _reset_input s in
  if negb cancelled then
    scores ← calculate_session_score (session (stats s)) (back (mode s))
                (modalities (mode s)) (trial_number (mode s) - 1);
    mret (emit (on_session_end s) (SessionEnd scores cancelled) s)
  else
    mret (emit (on_session_end s) (SessionEnd ∅ cancelled) s).

(** [_get_real_back] *)
Definition _get_real_back (s : GameSession) : res Z :=
  let m := mode s in
  if crab m =? 1 then
    if back m =? 0 then Raise ZeroDivisionError
    else mret (1 + 2 * ((trial_number m - 1) mod back m))
  else if VARIABLE_NBACK (cfg s) then
    getitem (variable_list m) (trial_number m - back m - 1)
  else mret (back m).

(** [_generate_stimulus]; [fuel] bounds the redraws of a zero operand. *)
Definition _generate_stimulus (fuel : nat) (s : GameSession) : res GameSession :=
  let m := mode s in
  let c := cfg s in
  '(stim, r0) ← generate_base_stimuli (modalities m) (multi m) (rng_state s);
  '(operations, r1) ←
    choose_arithmetic_operation (ARITHMETIC_USE_ADDITION c)
      (ARITHMETIC_USE_SUBTRACTION c) (ARITHMETIC_USE_MULTIPLICATION c)
      (ARITHMETIC_USE_DIVISION c) r0;
  let s := upd_mode (set_current_operation operations) s in
  let min_number := if ARITHMETIC_USE_NEGATIVES c then 0 - ARITHMETIC_MAX_NUMBER c else 0 in
  let max_number := ARITHMETIC_MAX_NUMBER c in
  previous_result ←
    (if String.eqb operations "divide" && in_list "arithmetic" (modalities m) then
       position1 ← dget (session (stats s)) "position1";
       if len position1 >=? back m then
         numbers ← dget (session (stats s)) "numbers";
         v ← getitem numbers (trial_number m - back m - 1);
         mret (Some v)
       else mret None
     else mret None);
  '(number, r2) ←
    generate_arithmetic_operand fuel operations min_number max_number
      (ARITHMETIC_ACCEPTABLE_DECIMALS c) previous_result r1;
  let stim := oset stim "number" (VInt number) in
  real_back ← _get_real_back s;
  '(stim, r3) ←
    (if negb (bool_decide (modalities m = ["arithmetic"]))
        && (back m <? trial_number m) then
       apply_nback_matching stim (session (stats s)) (trial_number m) real_back
         (modalities m) (CHANCE_OF_GUARANTEED_MATCH c) (CHANCE_OF_INTERFERENCE c)
         (multi m) r2
     else mret (stim, r2));
  default_color ←
    match VISUAL_COLORS c with
    | Some colors => getitem colors 0
    | None => mret (VInt 1)
    end;
  let stim := apply_static_defaults stim (modalities m) default_color in
  let s := upd_mode (set_current_stim stim) s in
  let s := set_rng_state r3 s in
  mret (emit (on_stimulus_generated s) (StimulusGenerated stim) s).

(** [_start_new_trial]; [now] is what [time.time()] returns. *)
Definition _start_new_trial (fuel : nat) (now : float) (s : GameSession)
  : res GameSession :=
  let s := upd_mode (set_show_missed false) s in
  s ← (if 0 <? trial_number (mode s) then
         h ← save_input (mode s) (session (stats s));
         mret (upd_stats (set_session h) s)
       else mret s);
  let s := upd_mode (λ m, set_trial_number (trial_number m + 1) m) s in
  let s := set_trial_starttime now s in
  let s := upd_mode (set_m_trial_starttime (trial_starttime s)) s in
  if num_trials_total (mode s) <? trial_number (mode s) then end_ false s
  else
    s ← _generate_stimulus fuel s;
    let s := _reset_input s in
    mret (emit (on_trial_start s) TrialStart s).

(** The self-paced gate of [update]: the tick moves on unless the mode is
    self-paced and the tick is inside the waiting window. *)
Definition advance_tick (s : GameSession) : GameSession :=
  let m := mode s in
  if negb (selfpaced m) || (ticks_per_trial m - 6 <? tick m) || (tick m <? 5)
  then upd_mode (set_tick (tick m + 1)) s
  else s.

Definition positions_count (s : GameSession) : Z :=
  Z.max 0 (len (List.filter (String.prefix "position") (modalities (mode s))) - 1).

(** The three tick tests that follow the start of a trial in [update]. *)
Definition hide_stimulus (s : GameSession) : GameSession :=
  let m := mode s in
  if (tick m =? 6 + positions_count s) || (tick m =? ticks_per_trial m - 1)
  then emit (on_stimulus_hide s) StimulusHide s
  else s.

Definition show_feedback (s : GameSession) : GameSession :=
  let m := mode s in
  if tick m =? ticks_per_trial m - 2 then
    let s := upd_mode (set_tick 0) s in
    let s := upd_mode (set_show_missed true) s in
    emit (on_feedback_show s) FeedbackShow s
  else s.

Definition rollover (s : GameSession) : GameSession :=
  let m := mode s in
  if tick m =? ticks_per_trial m then upd_mode (set_tick 0) s else s.

(** [update(dt)] up to its last statement: the gate, the start of a
    trial at tick 1, the hiding of the stimulus and the feedback. *)
Definition update_to_feedback (fuel : nat) (now : float) (s : GameSession)
  : res GameSession :=
  let s := advance_tick s in
  s ← (if tick (mode s) =? 1 then _start_new_trial fuel now s else mret s);
  let s := hide_stimulus s in
  mret (show_feedback s).

(** [update(dt)]; [now] is what [time.time()] returns, [fuel] bounds the
    redraws of the operand generator. *)
Definition update (fuel : nat) (now : float) (s : GameSession) : res GameSession :=
  if negb (started s) || paused s then mret s
  else
    s ← update_to_feedback fuel now s;
    mret (rollover s).

(** [start(available_audio_sets, available_audio2_sets)], section by
    section; [fuel] bounds the iterations of the fixed-count generator. *)

(** "Initialize timing" *)
Definition start_timing (s : GameSession) : GameSession :=
  let s := upd_mode (set_tick (-9)) s in
  let s := upd_mode (λ m, set_tick (tick m - 5 * (multi m - 1)) m) s in
  if String.eqb (MULTI_MODE (cfg s)) "image"
  then upd_mode (λ m, set_tick (tick m - 5 * (multi m - 1)) m) s
  else s.

(** "Initialize session counters" *)
Definition start_counters (s : GameSession) : GameSession :=
  let s := upd_mode (λ m, set_session_number (session_number m + 1) m) s in
  let s := upd_mode (set_trial_number 0) s in
  let s := set_started true s in
  let s := upd_mode (set_m_started true) s in
  let s := set_paused false s in
  upd_mode (set_m_paused false) s.

(** "Randomly select audio sets" *)
Definition start_audio_sets (available_audio_sets available_audio2_sets : list string)
    (s : GameSession) : res GameSession :=
  '(sound, r0) ← choice available_audio_sets (rng_state s);
  let s := set_sound_mode sound s in
  '(sound2, r1) ← choice available_audio2_sets r0;
  let s := set_sound2_mode sound2 s in
  let s := upd_mode (set_m_sound_mode (sound_mode s)) s in
  let s := upd_mode (set_m_sound2_mode (sound2_mode s)) s in
  mret (set_rng_state r1 s).

(** "Generate variable N-back sequence if enabled" *)
Definition start_variable_nback (s : GameSession) : res GameSession :=
  if VARIABLE_NBACK (cfg s) then
    '(l, r) ← generate_variable_nback_sequence (back (mode s))
                (num_trials_total (mode s)) (rng_state s);
    mret (set_rng_state r (upd_mode (set_variable_list l) s))
  else mret s.

(** "Generate Jaeggi sequence if enabled" *)
Definition start_jaeggi (fuel : nat) (s : GameSession) : res GameSession :=
  if JAEGGI_MODE (cfg s) then
    '(bt, r) ← compute_jaeggi_sequence fuel (back (mode s))
                 (num_trials_total (mode s)) (rng_state s);
    mret (set_rng_state r (upd_mode (set_bt_sequence bt) s))
  else mret s.

Definition start (fuel : nat) (available_audio_sets available_audio2_sets : list string)
    (s : GameSession) : res GameSession :=
  let s := start_counters (start_timing s) in
  s ← start_audio_sets available_audio_sets available_audio2_sets s;
  s ← start_variable_nback s;
  s ← start_jaeggi fuel s;
  let s := upd_stats (set_session initialize_session) s in
  mret (emit (on_trial_start s) TrialStart s).

(** [register_input(modality, timestamp)]; [now] is what [time.time()]
    returns when no timestamp is given. *)
Definition register_input (modality : string) (timestamp : option float) (now : float)
    (s : GameSession) : GameSession :=
  let timestamp := match timestamp with Some t => t | None => now end in
  if bool_decide (is_Some (inputs (mode s) !! modality)) then
    let s := upd_mode (λ m, set_inputs (<[modality := true]> (inputs m)) m) s in
    upd_mode (λ m, set_input_rts
                     (<[modality := (timestamp - trial_starttime s)%float]> (input_rts m)) m) s
  else s.

Definition pause (s : GameSession) : GameSession :=
  upd_mode (set_m_paused true) (set_paused true s).

Definition resume (s : GameSession) : GameSession :=
  upd_mode (set_m_paused false) (set_paused false s).

(** What no call on a running session alters: the timing parameters of
    the mode, the session counter and the registered handlers. *)
Definition keeps (s s' : GameSession) : Prop :=
  ticks_per_trial (mode s') = ticks_per_trial (mode s)
  ∧ selfpaced (mode s') = selfpaced (mode s)
  ∧ modalities (mode s') = modalities (mode s)
  ∧ session_number (mode s') = session_number (mode s)
  ∧ on_session_end s' = on_session_end s.

(** The waiting window of self-paced mode, as the gate of [update] has
    it: both ends included. *)
Definition holds_tick (s : GameSession) : bool :=
  selfpaced (mode s) && (5 <=? tick (mode s))
  && (tick (mode s) <=? ticks_per_trial (mode s) - 6).

(** *** Driving a session

    The calls a host makes on a running session, and their effect in
    sequence. *)
Inductive call : Type :=
  | CallUpdate (fuel : nat) (now : float)
  | CallRegisterInput (modality : string) (timestamp : option float) (now : float)
  | CallPause
  | CallResume.

Definition perform (c : call) (s : GameSession) : res GameSession :=
  match c with
  | CallUpdate fuel now => update fuel now s
  | CallRegisterInput modality timestamp now =>
      mret (register_input modality timestamp now s)
  | CallPause => mret (pause s)
  | CallResume => mret (resume s)
  end.

Definition run (calls : list call) (s : GameSession) : res GameSession :=
  for_each perform calls s.

(** *** A concrete session

    Dual 2-back (position and audio), 24 trials of 30 ticks, default
    chances; every handler registered. *)
Definition demo_mode (paced : bool) (at_tick : Z) : Mode :=
  {| multi := 1; selfpaced := paced; crab := 0;
     modalities := ["position1"; "audio"];
     back := 2; num_trials_total := 24; ticks_per_trial := 30;
     tick := at_tick; session_number := 7; trial_number := 0;
     m_started := false; m_paused := false;
     m_sound_mode := ""; m_sound2_mode := "";
     variable_list := []; bt_sequence := [];
     show_missed := false; m_trial_starttime := 0;
     inputs := {[ "position1" := false; "audio" := false ]};
     input_rts := {[ "position1" := 0%float; "audio" := 0%float ]};
     current_stim := []; current_operation := "" |}.

Definition demo_cfg : Cfg :=
  {| MULTI_MODE := "color"; VARIABLE_NBACK := false; JAEGGI_MODE := false;
     ARITHMETIC_USE_ADDITION := true; ARITHMETIC_USE_SUBTRACTION := true;
     ARITHMETIC_USE_MULTIPLICATION := true; ARITHMETIC_USE_DIVISION := true;
     ARITHMETIC_USE_NEGATIVES := false; ARITHMETIC_MAX_NUMBER := 12;
     ARITHMETIC_ACCEPTABLE_DECIMALS := λ _ _, false;
     CHANCE_OF_GUARANTEED_MATCH := 0.125; CHANCE_OF_INTERFERENCE := 0.125;
     VISUAL_COLORS := None |}.

Definition demo_session (paced : bool) (at_tick : Z) (running : bool) : GameSession :=
  {| mode := demo_mode paced at_tick;
     stats := {| session := initialize_session; sessions_today := 0 |};
     cfg := demo_cfg;
     on_stimulus_generated := true; on_trial_start := true; on_trial_end := true;
     on_session_end := true; on_feedback_show := true; on_stimulus_hide := true;
     started := running; paused := false; trial_starttime := 0.5;
     sound_mode := "none"; sound2_mode := "none";
     rng_state := jaeggi_demo_rng; events := [] |}.

(** The session above, started, then driven through 45 updates (into its
    second trial), a key press, a pause and a resume. *)
Definition or_else {A : Type} (r : res A) (default : A) : A :=
  match r with
  | Ok a => a
  | _ => default
  end.

Definition demo_calls : list call :=
  replicate 45 (CallUpdate 5 1) ++ [CallRegisterInput "audio" None 1.5; CallPause; CallResume].

Definition demo_started : GameSession :=
  or_else (start 0 ["letters"] ["nato"] (demo_session false 0 false))
    (demo_session false 0 false).

Definition demo_running : GameSession :=
  or_else (run demo_calls demo_started) demo_started.

End GameSession.
(** * Verification *)

(** ** Facts about the Python runtime model *)

Module PyFacts.

Lemma bind_ok {A B : Type} (m : res A) (k : A → res B) (b : B) :
  (m ≫= k) = Ok b → ∃ a, m = Ok a ∧ k a = Ok b.
Proof. destruct m; simpl; intros H; try discriminate. eauto. Qed.

(** Inversion of a successful sequence of steps. *)
Ltac inv_bind H :=
  let x := fresh "x" in
  let E := fresh "E" in
  apply bind_ok in H as (x & E & H);
  repeat match type of H with context [let '(_, _) := ?p in _] => destruct p end.

Ltac inv_ok H := injection H as <- || (unfold mret, res_ret in H; injection H as <-).

Lemma ok_bind {A B : Type} (a : A) (k : A → res B) : (Ok a ≫= k) = k a.
Proof. reflexivity. Qed.

Lemma for_each_cons {S X : Type} (body : X → S → res S) (x : X) (xs : list X) (s : S) :
  for_each body (x :: xs) s = body x s ≫= for_each body xs.
Proof. reflexivity. Qed.

Lemma range_nat (a b : nat) :
  range (Z.of_nat a) (Z.of_nat b) = Z.of_nat <$> seq a (b - a).
Proof.
  unfold range.
  replace (Z.to_nat (Z.of_nat b - Z.of_nat a)) with (b - a)%nat by lia.
  replace (seq a (b - a)) with (seq (a + 0) (b - a)) by (f_equal; lia).
  rewrite <- fmap_add_seq, <- list_fmap_compose.
  apply list_fmap_ext. intros _ i _. simpl. lia.
Qed.

Lemma range_empty (a b : Z) : b ≤ a → range a b = [].
Proof. intros H. unfold range. by replace (Z.to_nat (b - a)) with 0%nat by lia. Qed.

Lemma index_of_nat {A : Type} (l : list A) (i : nat) :
  (i < length l)%nat → index_of l (Z.of_nat i) = Some i.
Proof.
  intros H. unfold index_of.
  destruct (Z.ltb_spec (Z.of_nat i) 0) as [?|_]; [lia|].
  destruct (Z.leb_spec 0 (Z.of_nat i)) as [_|?]; [|lia].
  destruct (Z.ltb_spec (Z.of_nat i) (Z.of_nat (length l))) as [_|?]; [|lia].
  simpl. by rewrite Nat2Z.id.
Qed.

Lemma getitem_nat {A : Type} (l : list A) (i : nat) (x : A) :
  l !! i = Some x → getitem l (Z.of_nat i) = Ok x.
Proof.
  intros H. unfold getitem.
  rewrite index_of_nat by (by eapply lookup_lt_Some). by rewrite H.
Qed.

Lemma setitem_nat {A : Type} (l : list A) (i : nat) (x : A) :
  (i < length l)%nat → setitem l (Z.of_nat i) x = Ok (<[i := x]> l).
Proof. intros H. unfold setitem. by rewrite index_of_nat. Qed.

Lemma randint_1_8 (r : rng) :
  ∃ v, randint 1 8 r = Ok (v, next r) ∧ 1 ≤ v ≤ 8.
Proof.
  exists (1 + raw r mod 8). split; [reflexivity|].
  pose proof (Z.mod_pos_bound (raw r) 8). lia.
Qed.

Lemma getitem_Z {A : Type} (l : list A) (i : Z) (x : A) :
  0 ≤ i → l !! Z.to_nat i = Some x → getitem l i = Ok x.
Proof. intros Hi H. rewrite <- (Z2Nat.id i Hi). by apply getitem_nat. Qed.

Lemma getitem_out {A : Type} (l : list A) (i : Z) :
  Z.of_nat (length l) ≤ i → getitem l i = Raise IndexError.
Proof.
  intros H. unfold getitem, index_of.
  destruct (Z.ltb_spec i 0) as [?|_]; [lia|].
  destruct (Z.ltb_spec i (Z.of_nat (length l))) as [?|_]; [lia|].
  by rewrite andb_false_r.
Qed.

(** The four integer tests the code uses, decided from the order. *)
Lemma leb_no (a b : Z) : b < a → (a <=? b) = false.
Proof. apply Z.leb_gt. Qed.
Lemma leb_yes (a b : Z) : a ≤ b → (a <=? b) = true.
Proof. apply Z.leb_le. Qed.
Lemma ltb_no (a b : Z) : b ≤ a → (a <? b) = false.
Proof. apply Z.ltb_ge. Qed.
Lemma ltb_yes (a b : Z) : a < b → (a <? b) = true.
Proof. apply Z.ltb_lt. Qed.
Lemma geb_no (a b : Z) : a < b → (a >=? b) = false.
Proof. intros H. rewrite Z.geb_leb. by apply Z.leb_gt. Qed.
Lemma geb_yes (a b : Z) : b ≤ a → (a >=? b) = true.
Proof. intros H. rewrite Z.geb_leb. by apply Z.leb_le. Qed.

(** Reading a key just written. *)
Lemma oget_oset_eq {V : Type} (d : odict V) (k : string) (v : V) :
  oget (oset d k v) k = Some v.
Proof.
  induction d as [|[k' v'] d IH]; simpl.
  - by rewrite String.eqb_refl.
  - destruct (String.eqb k' k) eqn:E; simpl; by rewrite E.
Qed.

End PyFacts.

(** ** The fixed-count (Jaeggi) sequence generator *)

Module JaeggiSpec.
Import PyFacts StimulusGenerator.

Lemma count_in_S (P : nat → bool) (lo len : nat) :
  count_in P lo (S len) = ((if P lo then 1 else 0) + count_in P (S lo) len)%nat.
Proof. unfold count_in. simpl. by destruct (P lo). Qed.

Lemma count_in_ext (P Q : nat → bool) (lo len : nat) :
  (∀ i, (lo ≤ i < lo + len)%nat → P i = Q i) →
  count_in P lo len = count_in Q lo len.
Proof.
  revert lo. induction len as [|len IH]; intros lo H; [done|].
  rewrite !count_in_S, (H lo) by lia. f_equal. apply IH. intros i Hi. apply H. lia.
Qed.

Lemma count_in_le (P : nat → bool) (lo len : nat) : (count_in P lo len ≤ len)%nat.
Proof.
  revert lo. induction len as [|len IH]; intros lo; [done|].
  rewrite count_in_S. specialize (IH (S lo)). destruct (P lo); lia.
Qed.

(** [matches_at] only looks at the entries up to the index. *)
Lemma matches_at_take (n : nat) (l l' : list Z) (i : nat) :
  take (S i) l' = take (S i) l → matches_at n l' i = matches_at n l i.
Proof.
  intros H. unfold matches_at.
  assert (∀ j, (j ≤ i)%nat → l' !! j = l !! j) as E.
  { intros j Hj. rewrite <- (lookup_take_lt l' (S i) j), <- (lookup_take_lt l (S i) j) by lia.
    by rewrite H. }
  by rewrite !E by lia.
Qed.

(** One round of the regeneration loop at a valid index. *)
Lemma fill_body_nat (n k : nat) (l : list Z) (r r' : rng) (c v b : Z) :
  randint 1 8 r = Ok (v, r') → (n ≤ k < length l)%nat →
  <[k := v]> l !! (k - n)%nat = Some b →
  fill_body (Z.of_nat n) (Z.of_nat k) (l, r, c)
  = Ok (<[k := v]> l, r', if v =? b then c + 1 else c).
Proof.
  intros Hv Hk Hb. unfold fill_body. rewrite Hv, ok_bind.
  rewrite setitem_nat, ok_bind by lia.
  rewrite (getitem_nat _ _ v), ok_bind by (apply list_lookup_insert_eq; lia).
  replace (Z.of_nat k - Z.of_nat n) with (Z.of_nat (k - n)) by lia.
  by rewrite (getitem_nat _ _ b), ok_bind.
Qed.

(** The regeneration loop from index [k] on: it always runs to the end,
    keeps the length and the entries below [k], writes stimuli in 1..8, and
    adds to the counter the number of matches of the final list. *)
Lemma fill_from (n : nat) (m k : nat) (l : list Z) (r : rng) (c : Z) :
  (n ≤ k)%nat → (k + m = length l)%nat →
  ∃ l' r' c',
    for_each (fill_body (Z.of_nat n)) (Z.of_nat <$> seq k m) (l, r, c) = Ok (l', r', c')
    ∧ length l' = length l
    ∧ take k l' = take k l
    ∧ (∀ i v, (k ≤ i)%nat → l' !! i = Some v → 1 ≤ v ≤ 8)
    ∧ c' = c + Z.of_nat (count_in (matches_at n l') k m).
Proof.
  revert k l r c. induction m as [|m IH]; intros k l r c Hn Hlen.
  - exists l, r, c. simpl. split; [done|]. split; [done|]. split; [done|]. split.
    + intros i v Hi Hv. apply lookup_lt_Some in Hv. lia.
    + unfold count_in. simpl. lia.
  - destruct (randint_1_8 r) as (v & Hv & Hrange).
    assert (k < length l)%nat as Hk by lia.
    destruct (lookup_lt_is_Some_2 l (k - n)) as [b Hb]; [lia|].
    set (l1 := <[k := v]> l).
    assert (l1 !! k = Some v) as H1k by (by apply list_lookup_insert_eq).
    set (b1 := if decide (k - n = k)%nat then v else b).
    assert (l1 !! (k - n)%nat = Some b1) as H1b.
    { unfold b1, l1. destruct (decide (k - n = k)%nat) as [->|Hne]; [done|].
      by rewrite list_lookup_insert_ne. }
    destruct (IH (S k) l1 (next r) (if v =? b1 then c + 1 else c))
      as (l' & r' & c' & Hrun & Hl & Htake & Hval & Hc); [lia| |].
    { unfold l1. rewrite length_insert. lia. }
    exists l', r', c'. split; [|split; [|split; [|split]]].
    + change (seq k (S m)) with (k :: seq (S k) m).
      rewrite fmap_cons, for_each_cons.
      rewrite (fill_body_nat n k l r (next r) c v b1 Hv) by (done || lia).
      rewrite ok_bind. exact Hrun.
    + rewrite Hl. unfold l1. by rewrite length_insert.
    + apply (f_equal (take k)) in Htake.
      rewrite !take_take in Htake. rewrite !Nat.min_l in Htake by lia.
      rewrite Htake. unfold l1. by rewrite take_insert_ge by lia.
    + intros i w Hi Hw. destruct (decide (i = k)) as [->|Hne].
      * assert (l' !! k = l1 !! k) as E.
        { rewrite <- (lookup_take_lt l' (S k) k), <- (lookup_take_lt l1 (S k) k) by lia.
          by rewrite Htake. }
        rewrite E, H1k in Hw. by injection Hw as <-.
      * apply (Hval i w); [lia|done].
    + rewrite Hc, count_in_S, (matches_at_take n l1 l' k Htake).
      unfold matches_at. rewrite H1k, H1b.
      destruct (Z.eqb_spec v b1) as [E|Hne].
      * rewrite bool_decide_eq_true_2 by congruence. lia.
      * rewrite bool_decide_eq_false_2 by congruence. lia.
Qed.

(** One regeneration pass over a list of [N] entries. *)
Lemma fill_pass_spec (n N : nat) (l : list Z) (r : rng) :
  (n ≤ N)%nat → length l = N →
  ∃ l' r' c',
    fill_pass (Z.of_nat n) (Z.of_nat N) l r = Ok (l', r', c')
    ∧ length l' = N
    ∧ take n l' = take n l
    ∧ (∀ i v, (n ≤ i)%nat → l' !! i = Some v → 1 ≤ v ≤ 8)
    ∧ c' = Z.of_nat (match_count n l').
Proof.
  intros Hn Hl. unfold fill_pass. rewrite range_nat.
  destruct (fill_from n (N - n) n l r 0) as (l' & r' & c' & Hrun & Hl' & Ht & Hv & Hc);
    [lia|lia|].
  exists l', r', c'. repeat (split; [done || lia|]).
  rewrite Hc. unfold match_count. by replace (length l') with N by lia.
Qed.

(** A list whose first [n] entries are stimuli and whose later entries
    are stimuli holds stimuli only. *)
Lemma in_1_8_split (n : nat) (l : list Z) :
  in_1_8 (take n l) → (∀ i v, (n ≤ i)%nat → l !! i = Some v → 1 ≤ v ≤ 8) → in_1_8 l.
Proof.
  intros Hp Ht. unfold in_1_8 in *. rewrite Forall_lookup in *. intros i v Hv.
  destruct (decide (i < n)%nat) as [Hi|Hi].
  - apply (Hp i). by rewrite lookup_take_lt.
  - apply (Ht i); [lia|done].
Qed.

(** The audio loop: it never raises; when it returns, the list has six
    matches, its length and warm-up entries are kept. *)
Lemma audio_loop_spec (fuel n N : nat) (a : list Z) (r : rng) :
  (n ≤ N)%nat → length a = N →
  audio_loop fuel (Z.of_nat n) (Z.of_nat N) a r = Diverge
  ∨ ∃ a' r',
      audio_loop fuel (Z.of_nat n) (Z.of_nat N) a r = Ok (a', r')
      ∧ length a' = N
      ∧ take n a' = take n a
      ∧ (∀ i v, (n ≤ i)%nat → a' !! i = Some v → 1 ≤ v ≤ 8)
      ∧ match_count n a' = 6%nat.
Proof.
  intros Hn. revert a r. induction fuel as [|fuel IH]; intros a r Hl; [by left|].
  destruct (fill_pass_spec n N a r Hn Hl) as (a1 & r1 & c & Hrun & Hl1 & Ht1 & Hv1 & Hc).
  simpl. rewrite Hrun, ok_bind.
  destruct (Z.eqb_spec c 6) as [E|E].
  - right. exists a1, r1. repeat (split; [done|]). lia.
  - destruct (IH a1 r1 Hl1) as [->|(a' & r' & -> & ? & Ht & ? & ?)]; [by left|].
    right. exists a', r'. repeat (split; [done || congruence|]). done.
Qed.

(** One round of the simultaneous-match count at a valid index. *)
Lemma both_body_nat (n k : nat) (p a : list Z) (c : Z) :
  (n ≤ k)%nat → (k < length p)%nat → (k < length a)%nat →
  both_body (Z.of_nat n) p a (Z.of_nat k) c
  = Ok (if matches_at n p k && matches_at n a k then c + 1 else c).
Proof.
  intros Hn Hp Ha. unfold both_body, matches_at.
  destruct (lookup_lt_is_Some_2 p k Hp) as [px Hpx].
  destruct (lookup_lt_is_Some_2 p (k - n)) as [pb Hpb]; [lia|].
  destruct (lookup_lt_is_Some_2 a k Ha) as [ax Hax].
  destruct (lookup_lt_is_Some_2 a (k - n)) as [ab Hab]; [lia|].
  replace (Z.of_nat k - Z.of_nat n) with (Z.of_nat (k - n)) by lia.
  rewrite (getitem_nat _ _ _ Hpx), ok_bind, (getitem_nat _ _ _ Hpb), ok_bind.
  rewrite Hpx, Hpb, Hax, Hab.
  destruct (Z.eqb_spec px pb) as [E|E].
  - rewrite (getitem_nat _ _ _ Hax), ok_bind, (getitem_nat _ _ _ Hab), ok_bind.
    rewrite (bool_decide_eq_true_2 (Some px = Some pb)) by congruence.
    destruct (Z.eqb_spec ax ab) as [E'|E'].
    + by rewrite bool_decide_eq_true_2 by congruence.
    + by rewrite bool_decide_eq_false_2 by congruence.
  - by rewrite (bool_decide_eq_false_2 (Some px = Some pb)) by congruence.
Qed.

Lemma count_both_from (n : nat) (p a : list Z) (m k : nat) (c : Z) :
  (n ≤ k)%nat → (k + m ≤ length p)%nat → (k + m ≤ length a)%nat →
  for_each (both_body (Z.of_nat n) p a) (Z.of_nat <$> seq k m) c
  = Ok (c + Z.of_nat (count_in (λ i, matches_at n p i && matches_at n a i) k m)).
Proof.
  revert k c. induction m as [|m IH]; intros k c Hn Hp Ha.
  - simpl. f_equal. unfold count_in. simpl. lia.
  - change (seq k (S m)) with (k :: seq (S k) m).
    rewrite fmap_cons, for_each_cons, both_body_nat, ok_bind by lia.
    rewrite IH, count_in_S by lia. f_equal.
    destruct (matches_at n p k && matches_at n a k); lia.
Qed.

Lemma count_both_spec (n N : nat) (p a : list Z) :
  (n ≤ N)%nat → length p = N → length a = N →
  count_both (Z.of_nat n) (Z.of_nat N) p a = Ok (Z.of_nat (both_count n p a)).
Proof.
  intros Hn Hp Ha. unfold count_both, both_count.
  rewrite range_nat, count_both_from by lia. by rewrite Hp.
Qed.

(** The initial lists of zeros have [num_trials] entries. *)
Lemma length_range (a b : Z) : length (range a b) = Z.to_nat (b - a).
Proof. unfold range. by rewrite length_fmap, length_seq. Qed.

Lemma length_zeros (num_trials : Z) : length (zeros num_trials) = Z.to_nat num_trials.
Proof.
  unfold zeros.
  assert (∀ (xs : list Z) (acc : list Z),
    length (foldl (λ acc _, acc ++ [0]) acc xs) = (length acc + length xs)%nat) as H.
  { induction xs as [|x xs IH]; intros acc; simpl; [lia|].
    rewrite IH, length_app. simpl. lia. }
  rewrite H, length_range. simpl. f_equal. lia.
Qed.

Lemma warmup_body_nat (k : nat) (p a : list Z) (r r0 r1 : rng) (v0 v1 : Z) :
  randint 1 8 r = Ok (v0, r0) → randint 1 8 r0 = Ok (v1, r1) →
  (k < length p)%nat → (k < length a)%nat →
  warmup_body (Z.of_nat k) (Bt p a r) = Ok (Bt (<[k := v0]> p) (<[k := v1]> a) r1).
Proof.
  intros H0 H1 Hp Ha. unfold warmup_body. cbn [bt_position bt_audio bt_rng].
  by rewrite H0, ok_bind, setitem_nat, ok_bind, H1, ok_bind, setitem_nat, ok_bind.
Qed.

(** The warm-up loop from index [k] on: it runs to the end, keeps the
    lengths and leaves stimuli in the entries it has passed. *)
Lemma warmup_from (m k : nat) (s : bt_state) :
  (k + m ≤ length (bt_position s))%nat → (k + m ≤ length (bt_audio s))%nat →
  in_1_8 (take k (bt_position s)) → in_1_8 (take k (bt_audio s)) →
  ∃ s', for_each warmup_body (Z.of_nat <$> seq k m) s = Ok s'
    ∧ length (bt_position s') = length (bt_position s)
    ∧ length (bt_audio s') = length (bt_audio s)
    ∧ in_1_8 (take (k + m) (bt_position s'))
    ∧ in_1_8 (take (k + m) (bt_audio s')).
Proof.
  revert k s. induction m as [|m IH]; intros k [p a r] Hp Ha Gp Ga;
    cbn [bt_position bt_audio bt_rng] in *.
  - exists (Bt p a r). rewrite Nat.add_0_r. by repeat (split; [done|]).
  - destruct (randint_1_8 r) as (v0 & Hv0 & R0).
    destruct (randint_1_8 (next r)) as (v1 & Hv1 & R1).
    assert (∀ (l : list Z) (v : Z), (k < length l)%nat → 1 ≤ v ≤ 8 →
              in_1_8 (take k l) → in_1_8 (take (S k) (<[k := v]> l))) as Hstep.
    { intros l v Hk Hv G. rewrite (take_S_r _ _ v) by (by apply list_lookup_insert_eq).
      rewrite take_insert_ge by lia. unfold in_1_8 in *. apply Forall_app. split; [done|].
      by apply Forall_singleton. }
    destruct (IH (S k) (Bt (<[k := v0]> p) (<[k := v1]> a) (next (next r))))
      as (s' & Hrun & Hlp & Hla & Gp' & Ga'); cbn [bt_position bt_audio bt_rng] in *.
    { rewrite length_insert. lia. }
    { rewrite length_insert. lia. }
    { apply Hstep; [lia|done..]. }
    { apply Hstep; [lia|done..]. }
    exists s'. change (seq k (S m)) with (k :: seq (S k) m).
    rewrite fmap_cons, for_each_cons.
    rewrite (warmup_body_nat k p a r _ _ v0 v1 Hv0 Hv1), ok_bind by lia.
    split; [exact Hrun|]. rewrite !length_insert in *. replace (k + S m)%nat with (S k + m)%nat by lia.
    by repeat (split; [done|]).
Qed.

(** The outer loop never raises on lists of [N] entries; when it returns,
    both lists have six matches and two of them are simultaneous. *)
Lemma outer_loop_spec (fuel n N : nat) (s : bt_state) :
  (n ≤ N)%nat → length (bt_position s) = N → length (bt_audio s) = N →
  outer_loop fuel (Z.of_nat n) (Z.of_nat N) s = Diverge
  ∨ ∃ s',
      outer_loop fuel (Z.of_nat n) (Z.of_nat N) s = Ok s'
      ∧ length (bt_position s') = N ∧ length (bt_audio s') = N
      ∧ take n (bt_position s') = take n (bt_position s)
      ∧ take n (bt_audio s') = take n (bt_audio s)
      ∧ (∀ i v, (n ≤ i)%nat → bt_position s' !! i = Some v → 1 ≤ v ≤ 8)
      ∧ (∀ i v, (n ≤ i)%nat → bt_audio s' !! i = Some v → 1 ≤ v ≤ 8)
      ∧ match_count n (bt_position s') = 6%nat
      ∧ match_count n (bt_audio s') = 6%nat
      ∧ both_count n (bt_position s') (bt_audio s') = 2%nat.
Proof.
  intros Hn. revert s. induction fuel as [|fuel IH]; intros [p a r] Hp Ha; [by left|].
  simpl in Hp, Ha.
  destruct (fill_pass_spec n N p r Hn Hp) as (p1 & r1 & c & Hrun & Hp1 & Ht1 & Hv1 & Hc).
  cbn [outer_loop bt_position bt_audio bt_rng]. rewrite Hrun, ok_bind.
  destruct (Z.eqb_spec c 6) as [E|E]; cbn [negb].
  - destruct (audio_loop_spec fuel n N a r1 Hn Ha)
      as [->|(a1 & r2 & -> & Ha1 & Hta & Hva & Hca)]; [by left|].
    rewrite ok_bind, (count_both_spec n N p1 a1 Hn Hp1 Ha1), ok_bind.
    destruct (Z.eqb_spec (Z.of_nat (both_count n p1 a1)) 2) as [B|B].
    + right. exists (Bt p1 a1 r2). simpl. repeat (split; [done || lia|]). lia.
    + destruct (IH (Bt p1 a1 r2) Hp1 Ha1) as [->|(s' & -> & ? & ? & Htp & Hta' & ?)];
        [by left|].
      right. exists s'. simpl in *. repeat (split; [done || congruence|]). done.
  - destruct (IH (Bt p1 a r1) Hp1 Ha) as [->|(s' & -> & ? & ? & Htp & Hta' & ?)];
      [by left|].
    right. exists s'. simpl in *. repeat (split; [done || congruence|]). done.
Qed.

(** With fewer than six post-warm-up entries no pass can count six
    matches, so the outer loop is still running whatever the fuel. *)
Lemma outer_loop_starved (fuel n N : nat) (s : bt_state) :
  (n ≤ N)%nat → (N - n < 6)%nat →
  length (bt_position s) = N → length (bt_audio s) = N →
  outer_loop fuel (Z.of_nat n) (Z.of_nat N) s = Diverge.
Proof.
  intros Hn Hfew. revert s. induction fuel as [|fuel IH]; intros [p a r] Hp Ha; [done|].
  simpl in Hp, Ha.
  destruct (fill_pass_spec n N p r Hn Hp) as (p1 & r1 & c & Hrun & Hp1 & Ht1 & Hv1 & Hc).
  cbn [outer_loop bt_position bt_audio bt_rng]. rewrite Hrun, ok_bind.
  assert (c ≠ 6) as E.
  { rewrite Hc. unfold match_count. pose proof (count_in_le (matches_at n p1) n (length p1 - n)).
    lia. }
  destruct (Z.eqb_spec c 6); [done|]. cbn [negb]. by apply IH.
Qed.

(** The generator as a whole, for [0 ≤ n_back ≤ num_trials]. *)
Lemma jaeggi_outcome (fuel : nat) (n_back num_trials : Z) (r : rng) :
  0 ≤ n_back ≤ num_trials →
  compute_jaeggi_sequence fuel n_back num_trials r = Diverge
  ∨ ∃ p a r',
      compute_jaeggi_sequence fuel n_back num_trials r = Ok ([p; a], r')
      ∧ Z.of_nat (length p) = num_trials ∧ Z.of_nat (length a) = num_trials
      ∧ in_1_8 p ∧ in_1_8 a
      ∧ match_count (Z.to_nat n_back) p = 6%nat
      ∧ match_count (Z.to_nat n_back) a = 6%nat
      ∧ both_count (Z.to_nat n_back) p a = 2%nat.
Proof.
  intros H. unfold compute_jaeggi_sequence.
  set (n := Z.to_nat n_back). set (N := Z.to_nat num_trials).
  replace n_back with (Z.of_nat n) by lia. replace num_trials with (Z.of_nat N) by lia.
  assert (length (zeros (Z.of_nat N)) = N) as Hz by (rewrite length_zeros; lia).
  change 0 with (Z.of_nat 0). rewrite range_nat, Nat.sub_0_r.
  destruct (warmup_from n 0 (Bt (zeros (Z.of_nat N)) (zeros (Z.of_nat N)) r))
    as (s & -> & Hp & Ha & Gp & Ga); simpl; try (rewrite Hz; lia); try by constructor.
  simpl in *.
  destruct (outer_loop_spec fuel n N s) as [->|(s' & -> & Hp' & Ha' & Tp & Ta & Vp & Va & C)];
    [lia|congruence..| |]; [by left|].
  right. exists (bt_position s'), (bt_audio s'), (bt_rng s'). rewrite ok_bind.
  split; [done|]. split; [lia|]. split; [lia|].
  split; [apply (in_1_8_split n); [by rewrite Tp|done]|].
  split; [apply (in_1_8_split n); [by rewrite Ta|done]|]. done.
Qed.

Lemma jaeggi_starved (fuel : nat) (n_back num_trials : Z) (r : rng) :
  0 ≤ n_back ≤ num_trials → num_trials - n_back < 6 →
  compute_jaeggi_sequence fuel n_back num_trials r = Diverge.
Proof.
  intros H Hfew. unfold compute_jaeggi_sequence.
  set (n := Z.to_nat n_back). set (N := Z.to_nat num_trials).
  replace n_back with (Z.of_nat n) by lia. replace num_trials with (Z.of_nat N) by lia.
  assert (length (zeros (Z.of_nat N)) = N) as Hz by (rewrite length_zeros; lia).
  change 0 with (Z.of_nat 0). rewrite range_nat, Nat.sub_0_r.
  destruct (warmup_from n 0 (Bt (zeros (Z.of_nat N)) (zeros (Z.of_nat N)) r))
    as (s & -> & Hp & Ha & Gp & Ga); simpl; try (rewrite Hz; lia); try by constructor.
  simpl in *. rewrite outer_loop_starved; [done|lia|lia|congruence..].
Qed.

(** C1. For [n_back >= 1] and [num_trials > n_back], whenever
    [compute_jaeggi_sequence] returns, it returns exactly two integer
    sequences, each of length [num_trials] with entries in 1..8, such that
    in each sequence exactly 6 of the post-warm-up entries equal the entry
    [n_back] positions earlier and exactly 2 indices are a match in both
    sequences at once. *)
Theorem compute_jaeggi_sequence_counts
    (fuel : nat) (n_back num_trials : Z) (r r' : rng) (bt : list (list Z)) :
  1 ≤ n_back → n_back < num_trials →
  compute_jaeggi_sequence fuel n_back num_trials r = Ok (bt, r') →
  ∃ p a,
    bt = [p; a]
    ∧ Z.of_nat (length p) = num_trials ∧ Z.of_nat (length a) = num_trials
    ∧ in_1_8 p ∧ in_1_8 a
    ∧ match_count (Z.to_nat n_back) p = 6%nat
    ∧ match_count (Z.to_nat n_back) a = 6%nat
    ∧ both_count (Z.to_nat n_back) p a = 2%nat.
Proof.
  intros H1 H2 Hrun.
  destruct (jaeggi_outcome fuel n_back num_trials r) as [E|(p & a & r0 & E & Hrest)];
    [lia|congruence|].
  exists p, a. split; [congruence|exact Hrest].
Qed.

Lemma compute_jaeggi_sequence_counts_witness :
  1 ≤ 2 ∧ 2 < 20 ∧
  ∃ p a,
    [[1; 2; 1; 2; 1; 2; 1; 2; 2; 3; 3; 4; 4; 5; 5; 6; 6; 7; 7; 8];
     [3; 4; 4; 5; 5; 6; 5; 6; 5; 6; 5; 6; 6; 7; 7; 8; 8; 1; 1; 2]] = [p; a]
    ∧ Z.of_nat (length p) = 20 ∧ Z.of_nat (length a) = 20
    ∧ in_1_8 p ∧ in_1_8 a
    ∧ match_count (Z.to_nat 2) p = 6%nat
    ∧ match_count (Z.to_nat 2) a = 6%nat
    ∧ both_count (Z.to_nat 2) p a = 2%nat.
Proof.
  split; [lia|]. split; [lia|].
  apply (compute_jaeggi_sequence_counts 2 2 20 jaeggi_demo_rng
           (Nat.iter 40 next jaeggi_demo_rng)); [lia|lia|].
  vm_compute. reflexivity.
Defined.

(** C4 (as amended). [compute_jaeggi_sequence] imposes no retry cap and
    has no failure exit: for [0 <= n_back <= num_trials] it never raises,
    and with fewer than six post-warm-up trials it is still looping
    whatever the number of iterations allowed. *)
Theorem compute_jaeggi_sequence_no_retry_cap
    (fuel : nat) (n_back num_trials : Z) (r : rng) :
  0 ≤ n_back ≤ num_trials →
  (∀ e, compute_jaeggi_sequence fuel n_back num_trials r ≠ Raise e)
  ∧ (num_trials - n_back < 6 →
     compute_jaeggi_sequence fuel n_back num_trials r = Diverge).
Proof.
  intros H. split.
  - intros e. destruct (jaeggi_outcome fuel n_back num_trials r H)
      as [->|(p & a & r' & -> & _)]; discriminate.
  - intros Hfew. by apply jaeggi_starved.
Qed.

Lemma compute_jaeggi_sequence_no_retry_cap_witness :
  0 ≤ 1 ≤ 3 ∧
  (∀ e, compute_jaeggi_sequence 50 1 3 jaeggi_demo_rng ≠ Raise e)
  ∧ (3 - 1 < 6 → compute_jaeggi_sequence 50 1 3 jaeggi_demo_rng = Diverge).
Proof.
  split; [lia|]. apply (compute_jaeggi_sequence_no_retry_cap 50 1 3 jaeggi_demo_rng). lia.
Defined.

(** C4, the claim as stated fails: for a 1-back session of 3 trials no
    random source and no number of iterations make the generator stop,
    neither with a result nor with an error. *)
Lemma compute_jaeggi_sequence_never_gives_up :
  ¬ ∃ (r : rng) (fuel : nat), compute_jaeggi_sequence fuel 1 3 r ≠ Diverge.
Proof. intros (r & fuel & H). apply H. apply jaeggi_starved; lia. Qed.

End JaeggiSpec.

(** ** The match checker *)

Module MatchCheckerSpec.
Import PyFacts MatchChecker.

(** During warm-up every checker answers [False] without reading the
    history. *)
Lemma check_key_match_warmup (h : history) (trial_number n_back : Z) (key : string) :
  trial_number ≤ n_back → check_key_match h trial_number n_back key = Ok false.
Proof. intros H. unfold check_key_match. by rewrite leb_yes. Qed.

Lemma check_combination_match_warmup (h : history) (trial_number n_back : Z)
    (combination_type : string) :
  trial_number ≤ n_back →
  check_combination_match h trial_number n_back combination_type = Ok false.
Proof. intros H. unfold check_combination_match. by rewrite leb_yes. Qed.

Lemma check_arithmetic_match_warmup (h : history) (trial_number n_back : Z)
    (player_answer : value) :
  trial_number ≤ n_back →
  check_arithmetic_match h trial_number n_back player_answer = Ok false.
Proof. intros H. unfold check_arithmetic_match. by rewrite leb_yes. Qed.

(** The guarded checkers answer [False] when the current trial is past
    the end of the recorded list. *)
Lemma check_key_match_past_end (h : history) (trial_number n_back : Z) (key : string)
    (col : list value) :
  h !! key = Some col → len col ≤ trial_number - 1 →
  check_key_match h trial_number n_back key = Ok false.
Proof.
  intros Hk Hlen. unfold check_key_match, dget. rewrite Hk.
  destruct (trial_number <=? n_back); [done|].
  destruct (trial_number - n_back - 1 <? 0); [done|].
  by rewrite ok_bind, geb_yes.
Qed.

(** With a level [n_back >= 0] and the key present, the guarded checkers
    never fault: both indices they read are in range. *)
Lemma check_key_match_total (h : history) (trial_number n_back : Z) (key : string)
    (col : list value) :
  0 ≤ n_back → h !! key = Some col →
  ∃ b, check_key_match h trial_number n_back key = Ok b.
Proof.
  intros Hn Hk. unfold check_key_match, dget. rewrite Hk.
  destruct (Z.leb_spec trial_number n_back); [by eexists|].
  destruct (Z.ltb_spec (trial_number - n_back - 1) 0); [by eexists|].
  rewrite ok_bind. unfold len.
  destruct (Z.geb_spec (trial_number - 1) (Z.of_nat (length col))); [by eexists|].
  destruct (lookup_lt_is_Some_2 col (Z.to_nat (trial_number - 1))) as [a Ha]; [lia|].
  destruct (lookup_lt_is_Some_2 col (Z.to_nat (trial_number - n_back - 1))) as [b Hb]; [lia|].
  rewrite (getitem_Z col (trial_number - 1) a) by (lia || done). rewrite ok_bind.
  rewrite (getitem_Z col (trial_number - n_back - 1) b) by (lia || done). rewrite ok_bind.
  by eexists.
Qed.

(** A warm-up trial leaves the counters of the score loop untouched: it
    adds nothing to the scoreable count. *)
Lemma modality_trial_warmup (h : history) (n_back : Z) (modality : string)
    (trial : Z) (acc : Z * Z) :
  trial ≤ n_back → modality_trial h n_back modality trial acc = Ok acc.
Proof. intros H. destruct acc. unfold modality_trial. by rewrite leb_yes. Qed.

Lemma arithmetic_trial_warmup (h : history) (n_back : Z) (trial : Z) (acc : Z * Z) :
  trial ≤ n_back → arithmetic_trial h n_back trial acc = Ok acc.
Proof. intros H. destruct acc. unfold arithmetic_trial. by rewrite leb_yes. Qed.

(** C8 (the code at the failing input). [check_combination_match] has no
    guard on the current index: on a history of one trial, asked about
    trial 3 at level 1, it raises [IndexError], where the guarded checkers
    answer [False] on the same history. *)
Theorem check_combination_match_faults :
  check_combination_match short_demo 3 1 "visvis" = Raise IndexError
  ∧ check_combination_match short_demo 3 1 "visaudio" = Raise IndexError
  ∧ check_combination_match short_demo 3 1 "audiovis" = Raise IndexError
  ∧ check_position_match short_demo 3 1 "vis" = Ok false
  ∧ check_audio_match short_demo 3 1 "audio" = Ok false.
Proof. vm_compute. done. Qed.

(** The exact operations on int operands: the verdict is the equality of
    the player's answer with the computed result. *)
Lemma check_arithmetic_match_exact (h : history) (t n a b e : Z) (op : string)
    (numbers ops : list value) (answer : value) :
  0 ≤ n → n < t →
  h !! "numbers" = Some numbers → h !! "operation" = Some ops →
  numbers !! Z.to_nat (t - n - 1) = Some (VInt a) →
  numbers !! Z.to_nat (t - 1) = Some (VInt b) →
  ops !! Z.to_nat (t - 1) = Some (VStr op) →
  exact_result op a b = Some e →
  check_arithmetic_match h t n answer = Ok (py_eq answer (VInt e)).
Proof.
  intros Hn Ht Hnum Hops Ha Hb Hop He.
  pose proof (lookup_lt_Some _ _ _ Ha) as La.
  pose proof (lookup_lt_Some _ _ _ Hb) as Lb.
  unfold check_arithmetic_match, dget, len. rewrite Hnum, Hops.
  rewrite leb_no, ltb_no by lia. rewrite ok_bind.
  rewrite !geb_no by lia.
  rewrite (getitem_Z numbers (t - n - 1) (VInt a)) by (lia || done). rewrite ok_bind.
  rewrite (getitem_Z numbers (t - 1) (VInt b)) by (lia || done). rewrite !ok_bind.
  rewrite (getitem_Z ops (t - 1) (VStr op)) by (lia || done). rewrite ok_bind.
  unfold exact_result in He. cbn [py_eq].
  destruct (String.eqb op "add"); [by injection He as <-|].
  destruct (String.eqb op "subtract"); [by injection He as <-|].
  destruct (String.eqb op "multiply"); [by injection He as <-|].
  discriminate.
Qed.

(** C3. With n-back operand 10 and current operand 4 under [divide]
    (expected result 2.5), [check_arithmetic_match] judges the answer 2.5
    correct, 2.51 correct (absolute tolerance 0.01) and 2.6 incorrect; for
    add, subtract and multiply on int operands, the verdict is the exact
    equality of the player's answer with the computed result. *)
Theorem check_arithmetic_match_tolerance :
  (check_arithmetic_match division_demo 2 1 (VFloat 2.5) = Ok true
   ∧ check_arithmetic_match division_demo 2 1 (VFloat 2.51) = Ok true
   ∧ check_arithmetic_match division_demo 2 1 (VFloat 2.6) = Ok false)
  ∧ ∀ (h : history) (t n a b e : Z) (op : string) (numbers ops : list value)
      (answer : value),
      0 ≤ n → n < t →
      h !! "numbers" = Some numbers → h !! "operation" = Some ops →
      numbers !! Z.to_nat (t - n - 1) = Some (VInt a) →
      numbers !! Z.to_nat (t - 1) = Some (VInt b) →
      ops !! Z.to_nat (t - 1) = Some (VStr op) →
      exact_result op a b = Some e →
      check_arithmetic_match h t n answer = Ok (py_eq answer (VInt e))
      ∧ ∀ z, answer = VInt z →
             (check_arithmetic_match h t n answer = Ok true ↔ z = e).
Proof.
  split; [by vm_compute|].
  intros h t n a b e op numbers ops answer Hn Ht Hnum Hops Ha Hb Hop He.
  rewrite (check_arithmetic_match_exact h t n a b e op numbers ops answer) by done.
  split; [done|]. intros z ->. cbn [py_eq]. split.
  - intros [= H]. by apply Z.eqb_eq.
  - intros ->. by rewrite Z.eqb_refl.
Qed.

Lemma check_arithmetic_match_tolerance_witness :
  check_arithmetic_match division_demo 1 0 (VInt 20) = Ok (py_eq (VInt 20) (VInt 20))
  ∧ ∀ z, VInt 20 = VInt z →
         (check_arithmetic_match division_demo 1 0 (VInt 20) = Ok true ↔ z = 20).
Proof.
  apply (proj2 check_arithmetic_match_tolerance division_demo 1 0 10 10 20 "add"
           [VInt 10; VInt 4] [VStr "add"; VStr "divide"] (VInt 20));
    first [lia | reflexivity].
Defined.

End MatchCheckerSpec.

(** ** The game session *)

Module GameSessionSpec.
Import PyFacts StimulusGenerator MatchChecker GameSession.

Lemma keeps_refl (s : GameSession) : keeps s s.
Proof. by repeat split. Qed.

Lemma keeps_trans (s1 s2 s3 : GameSession) : keeps s1 s2 → keeps s2 s3 → keeps s1 s3.
Proof. unfold keeps. intros (?&?&?&?&?) (?&?&?&?&?). repeat split; congruence. Qed.

Lemma emit_keeps (b : bool) (e : event) (s : GameSession) :
  keeps s (emit b e s) ∧ tick (mode (emit b e s)) = tick (mode s).
Proof. by destruct b. Qed.

Lemma emit_mode (b : bool) (e : event) (s : GameSession) : mode (emit b e s) = mode s.
Proof. by destruct b. Qed.

Lemma emit_handler (b : bool) (e : event) (s : GameSession) :
  on_session_end (emit b e s) = on_session_end s.
Proof. by destruct b. Qed.

Lemma emit_events (b : bool) (e : event) (s : GameSession) :
  events (emit b e s) = events s ++ (if b then [e] else []).
Proof. destruct b; simpl; [done|by rewrite app_nil_r]. Qed.

(** [end] keeps the tick; it moves the session counter only when the
    session is cancelled. *)
Lemma end_frame (cancelled : bool) (s s' : GameSession) :
  end_ cancelled s = Ok s' →
  tick (mode s') = tick (mode s)
  ∧ ticks_per_trial (mode s') = ticks_per_trial (mode s)
  ∧ selfpaced (mode s') = selfpaced (mode s)
  ∧ modalities (mode s') = modalities (mode s)
  ∧ on_session_end s' = on_session_end s
  ∧ session_number (mode s')
    = (if cancelled then session_number (mode s) - 1 else session_number (mode s)).
Proof.
  unfold end_. destruct cancelled; cbn [negb]; intros H.
  - inv_ok H. rewrite emit_mode, emit_handler. by cbn.
  - inv_bind H. inv_ok H. rewrite emit_mode, emit_handler. by cbn.
Qed.

Lemma reset_input_keeps (s : GameSession) :
  keeps s (_reset_input s) ∧ tick (mode (_reset_input s)) = tick (mode s).
Proof. by repeat split. Qed.

Lemma generate_stimulus_frame (fuel : nat) (s s' : GameSession) :
  _generate_stimulus fuel s = Ok s' → keeps s s' ∧ tick (mode s') = tick (mode s).
Proof.
  unfold _generate_stimulus. intros H.
  repeat inv_bind H. inv_ok H.
  unfold keeps. rewrite emit_mode, emit_handler. by cbn.
Qed.

Lemma start_new_trial_frame (fuel : nat) (now : float) (s s' : GameSession) :
  _start_new_trial fuel now s = Ok s' → keeps s s' ∧ tick (mode s') = tick (mode s).
Proof.
  unfold _start_new_trial. intros H. inv_bind H.
  assert (keeps s x ∧ tick (mode x) = tick (mode s)) as [Kx Tx].
  { destruct (0 <? _); [inv_bind E|]; inv_ok E; by cbn. }
  clear E. destruct Kx as (?&?&?&?&?).
  cbv zeta in H. match type of H with (if ?c then _ else _) = _ => destruct c end.
  - apply end_frame in H as (T & P & S & M & O & N). cbn in *.
    unfold keeps. repeat split; congruence.
  - inv_bind H. inv_ok H. apply generate_stimulus_frame in E as [(?&?&?&?&?) T].
    unfold keeps. rewrite emit_mode, emit_handler. cbn in *. repeat split; congruence.
Qed.

(** The gate: the tick is held in the waiting window and moves on by one
    outside of it. *)
Lemma advance_tick_spec (s : GameSession) :
  keeps s (advance_tick s)
  ∧ tick (mode (advance_tick s))
    = (if holds_tick s then tick (mode s) else tick (mode s) + 1).
Proof.
  unfold advance_tick, holds_tick.
  destruct (selfpaced (mode s)); cbn [negb orb andb]; [|by repeat split].
  destruct (Z.ltb_spec (ticks_per_trial (mode s) - 6) (tick (mode s)));
    destruct (Z.ltb_spec (tick (mode s)) 5);
    destruct (Z.leb_spec 5 (tick (mode s)));
    destruct (Z.leb_spec (tick (mode s)) (ticks_per_trial (mode s) - 6));
    cbn [orb andb]; try lia; by repeat split.
Qed.

Lemma hide_stimulus_frame (s : GameSession) :
  keeps s (hide_stimulus s) ∧ tick (mode (hide_stimulus s)) = tick (mode s).
Proof. unfold hide_stimulus. destruct (_ || _); [apply emit_keeps|by repeat split]. Qed.

Lemma show_feedback_frame (s : GameSession) :
  keeps s (show_feedback s)
  ∧ tick (mode (show_feedback s))
    = (if tick (mode s) =? ticks_per_trial (mode s) - 2 then 0 else tick (mode s)).
Proof.
  unfold show_feedback. destruct (_ =? _); [|by repeat split].
  unfold keeps. rewrite emit_mode, emit_handler. by cbn.
Qed.

Lemma rollover_frame (s : GameSession) :
  keeps s (rollover s)
  ∧ tick (mode (rollover s))
    = (if tick (mode s) =? ticks_per_trial (mode s) then 0 else tick (mode s)).
Proof. unfold rollover. destruct (_ =? _); by repeat split. Qed.

(** [update] up to the feedback: the tick after the gate, reset to 0 at
    [ticks_per_trial - 2]. *)
Lemma update_to_feedback_frame (fuel : nat) (now : float) (s s' : GameSession) :
  update_to_feedback fuel now s = Ok s' →
  keeps s s'
  ∧ tick (mode s')
    = (let t := if holds_tick s then tick (mode s) else tick (mode s) + 1 in
       if t =? ticks_per_trial (mode s) - 2 then 0 else t).
Proof.
  unfold update_to_feedback. intros H. inv_bind H. inv_ok H.
  destruct (advance_tick_spec s) as [Ka Ta].
  assert (keeps (advance_tick s) x ∧ tick (mode x) = tick (mode (advance_tick s)))
    as [Kx Tx].
  { destruct (_ =? 1); [by apply start_new_trial_frame in E|].
    inv_ok E. by repeat split. }
  destruct (hide_stimulus_frame x) as [Kh Th].
  destruct (show_feedback_frame (hide_stimulus x)) as [Kf Tf].
  split; [eauto using keeps_trans|].
  destruct Ka as (P1&_), Kx as (P2&_), Kh as (P3&_).
  rewrite Tf, Th, Tx, Ta, P3, P2, P1. done.
Qed.

(** When no trial starts (the tick after the gate is not 1), [update]
    up to the feedback always returns. *)
Lemma update_to_feedback_total (fuel : nat) (now : float) (s : GameSession) :
  tick (mode (advance_tick s)) ≠ 1 → ∃ s', update_to_feedback fuel now s = Ok s'.
Proof.
  intros H. unfold update_to_feedback.
  destruct (Z.eqb_spec (tick (mode (advance_tick s))) 1); [done|]. by eexists.
Qed.

(** C10. [register_input] called with a modality that is not a key of
    the session's input map is a silent no-op: no flag is set, no
    reaction time is recorded, the session is left as it was, and nothing
    is raised. *)
Theorem register_input_unknown_modality
    (modality : string) (timestamp : option float) (now : float) (s : GameSession) :
  inputs (mode s) !! modality = None →
  register_input modality timestamp now s = s.
Proof.
  intros H. unfold register_input. rewrite bool_decide_eq_false_2; [done|].
  rewrite H. by intros [? ?].
Qed.

Lemma register_input_unknown_modality_witness :
  inputs (mode (demo_session false 3 true)) !! "color" = None
  ∧ register_input "color" (Some 1.25%float) 2 (demo_session false 3 true)
    = demo_session false 3 true.
Proof.
  split; [reflexivity|].
  apply (register_input_unknown_modality "color" (Some 1.25%float) 2
           (demo_session false 3 true)).
  reflexivity.
Defined.

(** C2 (as amended). Registering the same channel twice within a trial
    keeps the flag [True] and overwrites the reaction time: after the
    second call it is the second timestamp minus the trial start, and the
    session is the one the second call alone would have produced. *)
Theorem register_input_last_wins
    (modality : string) (t1 t2 now1 now2 : float) (s : GameSession) :
  is_Some (inputs (mode s) !! modality) →
  let s1 := register_input modality (Some t1) now1 s in
  let s2 := register_input modality (Some t2) now2 s1 in
  inputs (mode s2) !! modality = Some true
  ∧ input_rts (mode s2) !! modality = Some (t2 - trial_starttime s)%float
  ∧ s2 = register_input modality (Some t2) now2 s.
Proof.
  intros H. cbv zeta. unfold register_input.
  rewrite (bool_decide_eq_true_2 (is_Some (inputs (mode s) !! modality))) by done.
  cbn. rewrite lookup_insert_eq.
  rewrite bool_decide_eq_true_2 by (by eexists).
  cbn. rewrite !lookup_insert_eq. split; [done|]. split; [done|].
  unfold upd_mode, set_mode, set_input_rts, set_inputs. cbn.
  by rewrite !insert_insert_eq.
Qed.

Lemma register_input_last_wins_witness :
  is_Some (inputs (mode (demo_session false 3 true)) !! "audio")
  ∧ (let s1 := register_input "audio" (Some 1%float) 0 (demo_session false 3 true) in
     let s2 := register_input "audio" (Some 2%float) 0 s1 in
     inputs (mode s2) !! "audio" = Some true
     ∧ input_rts (mode s2) !! "audio"
       = Some (2 - trial_starttime (demo_session false 3 true))%float
     ∧ s2 = register_input "audio" (Some 2%float) 0 (demo_session false 3 true)).
Proof.
  split; [by eexists|].
  apply (register_input_last_wins "audio" 1 2 0 0 (demo_session false 3 true)).
  by eexists.
Defined.

(** C2, the claim as stated fails: with the trial started at 0.5, a
    registration at 1.0 followed by one at 2.0 leaves the reaction time
    1.5, not the first-wins value 1.0 - 0.5. *)
Lemma register_input_overwrites_reaction_time :
  input_rts
    (mode (register_input "audio" (Some 2%float) 0
             (register_input "audio" (Some 1%float) 0 (demo_session false 3 true))))
    !! "audio" = Some 1.5%float
  ∧ input_rts
      (mode (register_input "audio" (Some 2%float) 0
               (register_input "audio" (Some 1%float) 0 (demo_session false 3 true))))
      !! "audio" ≠ Some (1 - 0.5)%float.
Proof.
  split; [by vm_compute|].
  intros H.
  apply (f_equal (λ o, match o with Some f => Prim2SF f | None => S754_nan end)) in H.
  vm_compute in H. discriminate.
Qed.

(** C6 (as amended). While the session is running and not paused, the
    gate of [update] moves the tick on by one, except when self-paced
    mode is active and [5 <= tick <= ticks_per_trial - 6] (both ends
    included), where it leaves the tick as it is. In the window [update]
    returns with the tick unchanged; in general the tick it leaves is the
    tick after the gate, reset to 0 at [ticks_per_trial - 2] and at
    [ticks_per_trial]; and [update] returns whenever no trial starts. *)
Theorem update_tick_gate (fuel : nat) (now : float) (s : GameSession) :
  started s = true → paused s = false →
  tick (mode (advance_tick s))
  = (if holds_tick s then tick (mode s) else tick (mode s) + 1)
  ∧ (holds_tick s = true →
     ∃ s', update fuel now s = Ok s' ∧ tick (mode s') = tick (mode s))
  ∧ (∀ s', update fuel now s = Ok s' →
       tick (mode s')
       = (let t := if holds_tick s then tick (mode s) else tick (mode s) + 1 in
          if (t =? ticks_per_trial (mode s) - 2) || (t =? ticks_per_trial (mode s))
          then 0 else t))
  ∧ (tick (mode (advance_tick s)) ≠ 1 → ∃ s', update fuel now s = Ok s').
Proof.
  intros Hs Hp. destruct (advance_tick_spec s) as [Ka Ta].
  assert (∀ s', update fuel now s = Ok s' →
       tick (mode s')
       = (let t := if holds_tick s then tick (mode s) else tick (mode s) + 1 in
          if (t =? ticks_per_trial (mode s) - 2) || (t =? ticks_per_trial (mode s))
          then 0 else t)) as Hfinal.
  { intros s' H. unfold update in H. rewrite Hs, Hp in H. cbn [negb orb] in H.
    inv_bind H. inv_ok H.
    apply update_to_feedback_frame in E as [(P&_) T].
    destruct (rollover_frame x) as [_ ->]. rewrite T, P. cbv zeta.
    set (t := if holds_tick s then _ else _).
    destruct (Z.eqb_spec t (ticks_per_trial (mode s) - 2)) as [E1|E1]; cbn [orb].
    - by destruct (0 =? _).
    - done. }
  assert (tick (mode (advance_tick s)) ≠ 1 → ∃ s', update fuel now s = Ok s') as Htotal.
  { intros H1. destruct (update_to_feedback_total fuel now s H1) as [x Hx].
    exists (rollover x). unfold update. rewrite Hs, Hp. cbn [negb orb].
    by rewrite Hx. }
  split; [done|]. split; [|split; [done|done]].
  intros Hh. unfold holds_tick in Hh.
  apply andb_prop in Hh as [Hh H6]. apply andb_prop in Hh as [Hp' H5].
  apply Z.leb_le in H5, H6.
  destruct Htotal as [s' Hs'].
  { rewrite Ta. unfold holds_tick. rewrite Hp'.
    rewrite (leb_yes 5), (leb_yes (tick (mode s))) by lia. cbn. lia. }
  exists s'. split; [done|]. rewrite (Hfinal s' Hs'). cbv zeta.
  unfold holds_tick. rewrite Hp', (leb_yes 5), (leb_yes (tick (mode s))) by lia.
  cbn [andb]. rewrite !(proj2 (Z.eqb_neq _ _)) by lia. done.
Qed.

Lemma update_tick_gate_witness :
  started (demo_session true 10 true) = true
  ∧ paused (demo_session true 10 true) = false
  ∧ (tick (mode (advance_tick (demo_session true 10 true)))
     = (if holds_tick (demo_session true 10 true)
        then tick (mode (demo_session true 10 true))
        else tick (mode (demo_session true 10 true)) + 1)
     ∧ (holds_tick (demo_session true 10 true) = true →
        ∃ s', update 0 0 (demo_session true 10 true) = Ok s'
              ∧ tick (mode s') = tick (mode (demo_session true 10 true)))
     ∧ (∀ s', update 0 0 (demo_session true 10 true) = Ok s' →
          tick (mode s')
          = (let t := if holds_tick (demo_session true 10 true)
                      then tick (mode (demo_session true 10 true))
                      else tick (mode (demo_session true 10 true)) + 1 in
             if (t =? ticks_per_trial (mode (demo_session true 10 true)) - 2)
                || (t =? ticks_per_trial (mode (demo_session true 10 true)))
             then 0 else t))
     ∧ (tick (mode (advance_tick (demo_session true 10 true))) ≠ 1 →
        ∃ s', update 0 0 (demo_session true 10 true) = Ok s')).
Proof.
  split; [reflexivity|]. split; [reflexivity|].
  apply (update_tick_gate 0 0 (demo_session true 10 true)); reflexivity.
Defined.

(** C6, the claim as stated fails: in a self-paced session of 30 ticks
    per trial the tick is held at 5 and at 24 = 30 - 6, the two ends the
    claim says are incremented. *)
Lemma update_holds_at_window_ends :
  (∃ s', update 0 0 (demo_session true 5 true) = Ok s'
         ∧ tick (mode s') = 5
         ∧ tick (mode s') ≠ tick (mode (demo_session true 5 true)) + 1)
  ∧ (∃ s', update 0 0 (demo_session true 24 true) = Ok s'
           ∧ tick (mode s') = 24
           ∧ tick (mode s') ≠ tick (mode (demo_session true 24 true)) + 1).
Proof. split; (eexists; split; [by vm_compute|]; by vm_compute). Qed.

(** *** Invariants of a running session *)

Lemma update_frame (fuel : nat) (now : float) (s s' : GameSession) :
  update fuel now s = Ok s' → keeps s s'.
Proof.
  unfold update. destruct (_ || _); intros H.
  - inv_ok H. apply keeps_refl.
  - inv_bind H. inv_ok H. apply update_to_feedback_frame in E as [K _].
    destruct (rollover_frame x) as [K' _]. eauto using keeps_trans.
Qed.

(** With at least three ticks per trial, a tick below
    [ticks_per_trial - 2] stays below it, and never shows as
    [ticks_per_trial] at the rollover test. *)
Lemma update_to_feedback_bound (fuel : nat) (now : float) (s s' : GameSession) :
  3 ≤ ticks_per_trial (mode s) →
  tick (mode s) < ticks_per_trial (mode s) - 2 →
  update_to_feedback fuel now s = Ok s' →
  tick (mode s') < ticks_per_trial (mode s') - 2.
Proof.
  intros H3 Hlt H. apply update_to_feedback_frame in H as [(P&_) T].
  rewrite T, P. cbv zeta.
  destruct (holds_tick s);
    match goal with |- context [?a =? ?b] => destruct (Z.eqb_spec a b) end; lia.
Qed.

Lemma rollover_idle (s : GameSession) :
  tick (mode s) ≠ ticks_per_trial (mode s) → rollover s = s.
Proof. intros H. unfold rollover. by rewrite (proj2 (Z.eqb_neq _ _)). Qed.

Lemma update_bound (fuel : nat) (now : float) (s s' : GameSession) :
  3 ≤ ticks_per_trial (mode s) →
  tick (mode s) < ticks_per_trial (mode s) - 2 →
  update fuel now s = Ok s' →
  tick (mode s') < ticks_per_trial (mode s') - 2.
Proof.
  intros H3 Hlt. unfold update. destruct (_ || _); intros H.
  - by inv_ok H.
  - inv_bind H. inv_ok H.
    pose proof (update_to_feedback_bound fuel now s x H3 Hlt E).
    rewrite rollover_idle by lia. done.
Qed.

Lemma perform_frame (c : call) (s s' : GameSession) :
  perform c s = Ok s' → keeps s s'.
Proof.
  destruct c; cbn [perform]; intros H.
  - by apply update_frame in H.
  - inv_ok H. unfold register_input. destruct (bool_decide _); by repeat split.
  - inv_ok H. by repeat split.
  - inv_ok H. by repeat split.
Qed.

Lemma perform_bound (c : call) (s s' : GameSession) :
  3 ≤ ticks_per_trial (mode s) →
  tick (mode s) < ticks_per_trial (mode s) - 2 →
  perform c s = Ok s' →
  tick (mode s') < ticks_per_trial (mode s') - 2.
Proof.
  intros H3 Hlt. destruct c; cbn [perform]; intros H.
  - by apply update_bound in H.
  - inv_ok H. unfold register_input. by destruct (bool_decide _).
  - by inv_ok H.
  - by inv_ok H.
Qed.

Lemma run_frame (calls : list call) (s s' : GameSession) :
  run calls s = Ok s' → keeps s s'.
Proof.
  unfold run. revert s. induction calls as [|c calls IH]; intros s H.
  - inv_ok H. apply keeps_refl.
  - rewrite for_each_cons in H. inv_bind H.
    apply perform_frame in E. apply IH in H. eauto using keeps_trans.
Qed.

Lemma run_bound (calls : list call) (s s' : GameSession) :
  3 ≤ ticks_per_trial (mode s) →
  tick (mode s) < ticks_per_trial (mode s) - 2 →
  run calls s = Ok s' →
  tick (mode s') < ticks_per_trial (mode s') - 2.
Proof.
  unfold run. revert s. induction calls as [|c calls IH]; intros s H3 Hlt H.
  - by inv_ok H.
  - rewrite for_each_cons in H. inv_bind H.
    pose proof (perform_frame c s x E) as (P&_).
    apply (IH x); [lia| |done]. by apply (perform_bound c s).
Qed.

(** [start] adds one to the session counter, sets the lead-in tick and
    keeps the timing parameters and handlers. *)
Lemma start_audio_sets_frame (sets sets2 : list string) (s s' : GameSession) :
  start_audio_sets sets sets2 s = Ok s' → keeps s s' ∧ tick (mode s') = tick (mode s).
Proof. unfold start_audio_sets. intros H. inv_bind H. inv_bind H. by inv_ok H. Qed.

Lemma start_variable_nback_frame (s s' : GameSession) :
  start_variable_nback s = Ok s' → keeps s s' ∧ tick (mode s') = tick (mode s).
Proof.
  unfold start_variable_nback. destruct (VARIABLE_NBACK _); intros H;
    [inv_bind H|]; by inv_ok H.
Qed.

Lemma start_jaeggi_frame (fuel : nat) (s s' : GameSession) :
  start_jaeggi fuel s = Ok s' → keeps s s' ∧ tick (mode s') = tick (mode s).
Proof.
  unfold start_jaeggi. destruct (JAEGGI_MODE _); intros H;
    [inv_bind H|]; by inv_ok H.
Qed.

Lemma start_frame (fuel : nat) (sets sets2 : list string) (s s' : GameSession) :
  start fuel sets sets2 s = Ok s' →
  session_number (mode s') = session_number (mode s) + 1
  ∧ ticks_per_trial (mode s') = ticks_per_trial (mode s)
  ∧ on_session_end s' = on_session_end s
  ∧ tick (mode s')
    = -9 - 5 * (multi (mode s) - 1)
      - (if String.eqb (MULTI_MODE (cfg s)) "image" then 5 * (multi (mode s) - 1) else 0).
Proof.
  unfold start. intros H. inv_bind H. inv_bind H. inv_bind H. inv_ok H.
  apply start_audio_sets_frame in E as [(P1&_&_&N1&O1) T1].
  apply start_variable_nback_frame in E0 as [(P2&_&_&N2&O2) T2].
  apply start_jaeggi_frame in E1 as [(P3&_&_&N3&O3) T3].
  rewrite emit_mode, emit_handler. cbn [mode upd_stats set_stats on_session_end].
  rewrite N3, N2, N1, P3, P2, P1, O3, O2, O1, T3, T2, T1.
  unfold start_counters, start_timing. cbn.
  destruct (String.eqb (MULTI_MODE (cfg s)) "image"); cbn; repeat split; lia.
Qed.

(** C9. In a session with at least three ticks per trial, from the
    negative tick set by [start] on, the tick that [update] finds is below
    [ticks_per_trial - 2] and so never equals [ticks_per_trial]: [update]
    resets it to 0 when it reaches [ticks_per_trial - 2], and at the final
    rollover test the tick is never [ticks_per_trial], so that the
    rollover branch is never taken. *)
Theorem rollover_unreachable
    (fuel0 : nat) (sets sets2 : list string) (s0 s1 : GameSession)
    (calls : list call) (s : GameSession) :
  3 ≤ ticks_per_trial (mode s0) →
  start fuel0 sets sets2 s0 = Ok s1 →
  tick (mode s1) < 0 →
  run calls s1 = Ok s →
  tick (mode s) < ticks_per_trial (mode s) - 2
  ∧ tick (mode s) ≠ ticks_per_trial (mode s)
  ∧ ∀ fuel now s',
      update_to_feedback fuel now s = Ok s' →
      tick (mode s')
      = (let t := if holds_tick s then tick (mode s) else tick (mode s) + 1 in
         if t =? ticks_per_trial (mode s) - 2 then 0 else t)
      ∧ tick (mode s') ≠ ticks_per_trial (mode s')
      ∧ rollover s' = s'.
Proof.
  intros H3 Hstart Hneg Hrun.
  apply start_frame in Hstart as (_ & P1 & _ & _).
  pose proof (run_frame calls s1 s Hrun) as (P & _).
  assert (tick (mode s) < ticks_per_trial (mode s) - 2) as Hlt.
  { apply (run_bound calls s1); [lia|lia|done]. }
  split; [done|]. split; [lia|].
  intros fuel now s' H.
  pose proof (update_to_feedback_bound fuel now s s' ltac:(lia) Hlt H) as B.
  apply update_to_feedback_frame in H as [_ T].
  split; [done|]. split; [lia|]. apply rollover_idle. lia.
Qed.

Lemma rollover_unreachable_witness :
  3 ≤ ticks_per_trial (mode (demo_session false 0 false))
  ∧ tick (mode demo_started) < 0
  ∧ (tick (mode demo_running) < ticks_per_trial (mode demo_running) - 2
     ∧ tick (mode demo_running) ≠ ticks_per_trial (mode demo_running)
     ∧ ∀ fuel now s',
         update_to_feedback fuel now demo_running = Ok s' →
         tick (mode s')
         = (let t := if holds_tick demo_running then tick (mode demo_running)
                     else tick (mode demo_running) + 1 in
            if t =? ticks_per_trial (mode demo_running) - 2 then 0 else t)
         ∧ tick (mode s') ≠ ticks_per_trial (mode s')
         ∧ rollover s' = s').
Proof.
  split; [by vm_compute|]. split; [by vm_compute|].
  apply (rollover_unreachable 0 ["letters"] ["nato"] (demo_session false 0 false)
           demo_started demo_calls demo_running).
  - by vm_compute.
  - vm_compute. reflexivity.
  - by vm_compute.
  - vm_compute. reflexivity.
Defined.

(** What [start] and the calls that follow leave of the session
    counter and the handler of the session end. *)
Lemma session_counter_running
    (fuel0 : nat) (sets sets2 : list string) (s0 s1 : GameSession)
    (calls : list call) (s : GameSession) :
  start fuel0 sets sets2 s0 = Ok s1 → run calls s1 = Ok s →
  session_number (mode s) = session_number (mode s0) + 1
  ∧ on_session_end s = on_session_end s0.
Proof.
  intros Hstart Hrun. apply start_frame in Hstart as (N & _ & O & _).
  apply run_frame in Hrun as (_ & _ & _ & N' & O'). split; congruence.
Qed.

(** [end(cancelled=True)] always returns, whatever the history holds. *)
Lemma end_cancelled (s : GameSession) :
  end_ true s
  = Ok (emit (on_session_end s) (SessionEnd ∅ true)
          (_reset_input
             (upd_mode (set_m_paused false)
                (set_paused false
                   (upd_mode (set_m_started false)
                      (set_started false
                         (upd_mode (λ m, set_session_number (session_number m - 1) m)
                            s))))))).
Proof. reflexivity. Qed.

(** [end(cancelled=False)] runs the score engine on the history, over
    [trial_number - 1] trials. *)
Lemma end_completed (s : GameSession) :
  end_ false s
  = (scores ← calculate_session_score (session (stats s)) (back (mode s))
                (modalities (mode s)) (trial_number (mode s) - 1);
     mret (emit (on_session_end s) (SessionEnd scores false)
             (_reset_input
                (upd_mode (set_m_paused false)
                   (set_paused false
                      (upd_mode (set_m_started false)
                         (set_started false
                            (upd_stats
                               (λ st, set_sessions_today (sessions_today st + 1) st)
                               s)))))))).
Proof. reflexivity. Qed.

(** C7. [end(cancelled=True)], called at any point of a started session,
    brings the session counter back to its value before [start], computes
    no score (it returns whatever the history holds and leaves the
    statistics untouched) and emits the session-end event with an empty
    score map; [end(cancelled=False)] computes the score with the score
    engine over [trial_number - 1] trials and emits the session-end event
    with that score map (it raises what the score engine raises). The
    event reaches the handler registered as [on_session_end]. *)
Theorem end_session
    (fuel0 : nat) (sets sets2 : list string) (s0 s1 : GameSession)
    (calls : list call) (s : GameSession) :
  start fuel0 sets sets2 s0 = Ok s1 → run calls s1 = Ok s →
  on_session_end s0 = true →
  (∃ s',
     end_ true s = Ok s'
     ∧ session_number (mode s') = session_number (mode s0)
     ∧ events s' = events s ++ [SessionEnd ∅ true]
     ∧ stats s' = stats s
     ∧ started s' = false ∧ paused s' = false)
  ∧ (∀ scores,
       calculate_session_score (session (stats s)) (back (mode s))
         (modalities (mode s)) (trial_number (mode s) - 1) = Ok scores →
       ∃ s',
         end_ false s = Ok s'
         ∧ events s' = events s ++ [SessionEnd scores false]
         ∧ session_number (mode s') = session_number (mode s0) + 1
         ∧ started s' = false ∧ paused s' = false)
  ∧ (∀ e,
       calculate_session_score (session (stats s)) (back (mode s))
         (modalities (mode s)) (trial_number (mode s) - 1) = Raise e →
       end_ false s = Raise e).
Proof.
  intros Hstart Hrun Hreg.
  destruct (session_counter_running fuel0 sets sets2 s0 s1 calls s Hstart Hrun) as [N O].
  rewrite Hreg in O. split; [|split].
  - eexists. split; [apply end_cancelled|]. rewrite O.
    unfold emit. cbn. repeat split. lia.
  - intros scores Hsc. rewrite end_completed, Hsc, ok_bind, O.
    eexists. split; [reflexivity|]. unfold emit. cbn. by repeat split.
  - intros e Hsc. by rewrite end_completed, Hsc.
Qed.

Lemma end_session_witness :
  on_session_end (demo_session false 0 false) = true
  ∧ ((∃ s',
        end_ true demo_running = Ok s'
        ∧ session_number (mode s') = session_number (mode (demo_session false 0 false))
        ∧ events s' = events demo_running ++ [SessionEnd ∅ true]
        ∧ stats s' = stats demo_running
        ∧ started s' = false ∧ paused s' = false)
     ∧ (∀ scores,
          calculate_session_score (session (stats demo_running))
            (back (mode demo_running)) (modalities (mode demo_running))
            (trial_number (mode demo_running) - 1) = Ok scores →
          ∃ s',
            end_ false demo_running = Ok s'
            ∧ events s' = events demo_running ++ [SessionEnd scores false]
            ∧ session_number (mode s')
              = session_number (mode (demo_session false 0 false)) + 1
            ∧ started s' = false ∧ paused s' = false)
     ∧ (∀ e,
          calculate_session_score (session (stats demo_running))
            (back (mode demo_running)) (modalities (mode demo_running))
            (trial_number (mode demo_running) - 1) = Raise e →
          end_ false demo_running = Raise e)).
Proof.
  split; [reflexivity|].
  apply (end_session 0 ["letters"] ["nato"] (demo_session false 0 false)
           demo_started demo_calls demo_running).
  - vm_compute. reflexivity.
  - vm_compute. reflexivity.
  - reflexivity.
Defined.

End GameSessionSpec.

(** ** The interference step of apply_nback_matching *)

Module InterferenceSpec.
Import PyFacts StimulusGenerator MatchChecker.

Lemma Forall_range (P : Z → Prop) (a b : Z) :
  (∀ i, a ≤ i < b → P i) → Forall P (range a b).
Proof.
  intros H. unfold range. apply Forall_fmap, Forall_forall.
  intros i Hi. apply elem_of_seq in Hi. simpl. apply H. lia.
Qed.

(** Swapping two entries in range gives a permutation. *)
Lemma swap_items_perm {A : Type} (x : list A) (i j : Z) :
  0 ≤ i < len x → 0 ≤ j < len x →
  ∃ x', swap_items x i j = Ok x' ∧ x' ≡ₚ x.
Proof.
  unfold len. intros Hi Hj.
  destruct (lookup_lt_is_Some_2 x (Z.to_nat i)) as [xi Hxi]; [lia|].
  destruct (lookup_lt_is_Some_2 x (Z.to_nat j)) as [xj Hxj]; [lia|].
  exists (<[Z.to_nat j := xi]> (<[Z.to_nat i := xj]> x)). split.
  - unfold swap_items.
    rewrite (getitem_Z x j xj), ok_bind by (lia || done).
    rewrite (getitem_Z x i xi), ok_bind by (lia || done).
    rewrite <- (Z2Nat.id i) at 1 by lia. rewrite setitem_nat, ok_bind by lia.
    rewrite <- (Z2Nat.id j) at 1 by lia. rewrite setitem_nat by (rewrite length_insert; lia).
    done.
  - by apply Permutation_insert_swap.
Qed.

(** The shuffle always returns, with a permutation of its argument. *)
Lemma shuffle_from {A : Type} (indices : list Z) (x : list A) (r : rng) :
  Forall (λ i, 0 ≤ i < len x) indices →
  ∃ x' r', for_each shuffle_body indices (x, r) = Ok (x', r') ∧ x' ≡ₚ x.
Proof.
  revert x r. induction indices as [|i indices IH]; intros x r Hall.
  - by exists x, r.
  - apply Forall_cons in Hall as [Hi Hall].
    assert (0 ≤ raw r mod (i + 1) < len x) as Hj.
    { pose proof (Z.mod_pos_bound (raw r) (i + 1)). lia. }
    destruct (swap_items_perm x i (raw r mod (i + 1)) Hi Hj) as (x1 & Hswap & Hperm).
    destruct (IH x1 (next r)) as (x' & r' & Hrun & Hperm').
    { unfold len in *. by rewrite (Permutation_length Hperm). }
    exists x', r'. split; [|by rewrite Hperm'].
    rewrite for_each_cons.
    change (shuffle_body i (x, r))
      with (swap_items x i (raw r mod (i + 1)) ≫= λ x', mret (x', next r)).
    by rewrite Hswap, ok_bind, ok_bind.
Qed.

Lemma shuffle_perm {A : Type} (x : list A) (r : rng) :
  ∃ x' r', shuffle x r = Ok (x', r') ∧ x' ≡ₚ x.
Proof.
  apply shuffle_from, Forall_reverse, Forall_range. unfold len. lia.
Qed.

(** The search among the candidates: either none is accepted, or the
    first accepted one gives the new [back]. *)
Lemma find_interference_spec (h : gmap string (list value)) (key : string)
    (col : list value) (t n : Z) (cands : list Z) :
  h !! key = Some col → 0 ≤ t - n - 1 → t - n < len col →
  Forall (λ i, -1 ≤ i) cands →
  (Forall (λ i, lure_ok col t n i = false) cands
   ∧ find_interference h key t n cands = Ok None)
  ∨ (∃ pre i post v,
       cands = pre ++ i :: post
       ∧ Forall (λ j, lure_ok col t n j = false) pre
       ∧ lure_ok col t n i = true
       ∧ 0 ≤ t - (n + i) - 1
       ∧ col !! Z.to_nat (t - (n + i) - 1) = Some v
       ∧ find_interference h key t n cands = Ok (Some (n + i))).
Proof.
  intros Hk Hn Hlen. unfold len in Hlen.
  induction cands as [|i cands IH]; intros Hall; [by left|].
  apply Forall_cons in Hall as [Hi Hall]. specialize (IH Hall).
  cbn [find_interference]. unfold dget. rewrite Hk.
  destruct (lookup_lt_is_Some_2 col (Z.to_nat (t - n - 1))) as [b Hb]; [lia|].
  assert (lure_ok col t n i = false →
          (if t - (n + i) - 1 >=? 0
           then Ok col ≫= λ col0, getitem col0 (t - (n + i) - 1) ≫= λ a0,
                  getitem col0 (t - n - 1) ≫= λ b0,
                    if negb (py_eq a0 b0) then mret (Some (n + i))
                    else find_interference h key t n cands
           else find_interference h key t n cands)
          = find_interference h key t n cands) as Hskip.
  { unfold lure_ok. intros Hno.
    destruct (Z.geb_spec (t - (n + i) - 1) 0) as [Hge|Hlt]; [|done].
    rewrite leb_yes in Hno by lia. cbn [andb] in Hno.
    destruct (lookup_lt_is_Some_2 col (Z.to_nat (t - (n + i) - 1))) as [a Ha]; [lia|].
    rewrite Ha, Hb in Hno.
    rewrite ok_bind.
    rewrite (getitem_Z col (t - (n + i) - 1) a) by (lia || done). rewrite ok_bind.
    rewrite (getitem_Z col (t - n - 1) b) by (lia || done). rewrite ok_bind.
    by rewrite Hno. }
  destruct (lure_ok col t n i) eqn:Hok.
  - right. unfold lure_ok in Hok. apply andb_prop in Hok as [Hge Hne].
    apply Z.leb_le in Hge.
    destruct (lookup_lt_is_Some_2 col (Z.to_nat (t - (n + i) - 1))) as [a Ha]; [lia|].
    rewrite Ha, Hb in Hne.
    exists [], i, cands, a. split; [done|]. split; [done|].
    split; [unfold lure_ok; by rewrite leb_yes, Ha, Hb by lia|].
    split; [done|]. split; [done|].
    rewrite geb_yes by lia.
    rewrite ok_bind.
    rewrite (getitem_Z col (t - (n + i) - 1) a) by (lia || done). rewrite ok_bind.
    rewrite (getitem_Z col (t - n - 1) b) by (lia || done). rewrite ok_bind.
    by rewrite Hne.
  - rewrite (Hskip eq_refl).
    destruct IH as [[Hnone Hrun]|(pre & j & post & v & -> & Hpre & Hj & Hge & Hv & Hrun)].
    + left. split; [by constructor|done].
    + right. exists (i :: pre), j, post, v. repeat split; try done. by constructor.
Qed.

(** The candidates are the offsets -1 (for [n_back >= 3]), 1 and
    [n_back]: none is 0 and none leads to a [back] of 0. *)
Lemma interference_candidates_facts (n : Z) :
  1 < n → Forall (λ i, -1 ≤ i ∧ i ≠ 0 ∧ n + i ≠ 0) (interference_candidates n).
Proof.
  intros H. unfold interference_candidates.
  destruct (n <? 3); repeat constructor; lia.
Qed.

(** [match_modality] when interference is triggered. *)
Lemma match_modality_triggered (h : gmap string (list value)) (t n multi_mode : Z)
    (cgm ci : float) (modality : string) (stim : stimuli) (positions : list value)
    (r ra rb : rng) (r1 r2 : float) :
  String.eqb modality "arithmetic" = false →
  random r = (r1, ra) → random ra = (r2, rb) →
  PrimFloat.ltb r1 cgm = false →
  PrimFloat.ltb (if 1 <? multi_mode then (1.5 * r2)%float else r2) ci = true →
  1 < n →
  match_modality h t n cgm ci multi_mode modality (stim, positions, r)
  = ('(back, rc) ← choose_interference h t n modality rb;
     '(stim', positions') ← apply_match h t multi_mode modality back (stim, positions);
     mret (stim', positions', rc)).
Proof.
  intros Hm Hr1 Hr2 H1 H2 Hn. unfold match_modality.
  rewrite Hm, Hr1, Hr2, H1, H2, ltb_yes by lia. done.
Qed.

Lemma choose_interference_unfold (h : gmap string (list value)) (t n : Z)
    (modality : string) (r : rng) :
  choose_interference h t n modality r
  = ('(shuffled, r') ← shuffle (interference_candidates n) r;
     found ← find_interference h (back_key modality) t n shuffled;
     let back := match found with Some b => b | None => n end in
     mret (if back =? n then None else Some back, r')).
Proof. unfold choose_interference, interference_candidates. by destruct (n <? 3). Qed.

(** Copying the value recorded [b] trials back. *)
Lemma apply_match_some (h : gmap string (list value)) (col : list value)
    (t b multi_mode : Z) (modality : string) (v : value)
    (stim : stimuli) (positions : list value) :
  b ≠ 0 → h !! back_key modality = Some col →
  0 ≤ t - b - 1 → col !! Z.to_nat (t - b - 1) = Some v →
  apply_match h t multi_mode modality (Some b) (stim, positions)
  = ('(stim1, positions1) ←
       (if (1 <? multi_mode) && String.prefix "position" modality then
          settle_positions stim positions multi_mode modality
            (current_key modality) v
        else mret (stim, positions));
     mret (oset stim1 (current_key modality) v, positions1)).
Proof.
  intros Hb Hk Hge Hv. unfold apply_match, dget.
  rewrite (proj2 (Z.eqb_neq b 0)) by done.
  by rewrite Hk, ok_bind, (getitem_Z col (t - b - 1) v), ok_bind.
Qed.

(** C5 (as amended). When interference is triggered for a channel
    ([r1 >= chance_guaranteed_match], [r2 < chance_interference],
    [n_back > 1]), the candidates are the offsets [n_back - 1] (left out
    when [n_back < 3]), [n_back + 1] and [2 * n_back], shuffled; the
    channel's value is forced to the value recorded at the first
    candidate, in shuffled order, that lies within the history and whose
    value differs from the value [n_back] trials back; if there is none,
    the channel (and the whole stimulus map) is left as it was. *)
Theorem interference_lure (h : gmap string (list value)) (col : list value)
    (t n multi_mode : Z) (cgm ci : float) (modality : string)
    (stim : stimuli) (positions : list value) (r ra rb : rng) (r1 r2 : float) :
  String.eqb modality "arithmetic" = false →
  h !! back_key modality = Some col →
  1 < n → n < t → t - 1 ≤ len col →
  random r = (r1, ra) → random ra = (r2, rb) →
  PrimFloat.ltb r1 cgm = false →
  PrimFloat.ltb (if 1 <? multi_mode then (1.5 * r2)%float else r2) ci = true →
  interference_outcome col t n multi_mode modality stim positions rb
    (match_modality h t n cgm ci multi_mode modality (stim, positions, r)).
Proof.
  intros Hm Hk Hn Ht Hlen Hr1 Hr2 H1 H2. unfold interference_outcome.
  destruct (shuffle_perm (interference_candidates n) rb) as (sh & r' & Hsh & Hperm).
  exists sh, r'. split; [done|]. split; [done|].
  pose proof (interference_candidates_facts n Hn) as Hfacts.
  rewrite <- Hperm in Hfacts.
  rewrite (match_modality_triggered h t n multi_mode cgm ci modality stim positions
             r ra rb r1 r2) by done.
  rewrite choose_interference_unfold, Hsh, ok_bind.
  destruct (find_interference_spec h (back_key modality) col t n sh)
    as [[Hnone ->]|(pre & i & post & v & -> & Hpre & Hi & Hge & Hv & ->)];
    [done|lia|lia|eapply Forall_impl; [exact Hfacts|]; simpl; lia| |].
  - left. split; [done|]. rewrite ok_bind. cbv zeta. by rewrite Z.eqb_refl.
  - right. exists pre, i, post, v. repeat (split; [done|]).
    apply Forall_app in Hfacts as [_ Hfi]. apply Forall_cons in Hfi as [(_ & Hi0 & Hb0) _].
    rewrite !ok_bind. cbv zeta.
    rewrite (proj2 (Z.eqb_neq (n + i) n)) by lia. rewrite ?ok_bind.
    rewrite (apply_match_some h col t (n + i) multi_mode modality v stim positions)
      by (lia || done).
    split.
    + intros stim' positions' r'' H.
      inv_bind H. unfold mret, res_ret in H. simplify_eq.
      inv_bind E. unfold mret, res_ret in E. simplify_eq.
      split; [apply oget_oset_eq|done].
    + intros Hsingle.
      assert ((1 <? multi_mode) && String.prefix "position" modality = false) as ->.
      { destruct Hsingle as [Hs| ->]; [by rewrite ltb_no by lia|by rewrite andb_false_r]. }
      by rewrite !ok_bind.
Qed.

Lemma interference_lure_witness :
  interference_outcome [VInt 7; VInt 5; VInt 1; VInt 1; VInt 2] 6 2 1 "audio"
    [("audio", VInt 8)] [VInt 0; VInt 0; VInt 0; VInt 0] (next (next lure_rng))
    (match_modality lure_history 6 2 0.125 0.125 1 "audio"
       ([("audio", VInt 8)], [VInt 0; VInt 0; VInt 0; VInt 0], lure_rng)).
Proof.
  apply (interference_lure lure_history [VInt 7; VInt 5; VInt 1; VInt 1; VInt 2]
           6 2 1 0.125 0.125 "audio" [("audio", VInt 8)]
           [VInt 0; VInt 0; VInt 0; VInt 0] lure_rng (next lure_rng)
           (next (next lure_rng)) 0.5 0).
  - reflexivity.
  - reflexivity.
  - lia.
  - lia.
  - vm_compute. discriminate.
  - vm_compute. reflexivity.
  - vm_compute. reflexivity.
  - reflexivity.
  - reflexivity.
Defined.

(** C5, the claim as stated fails: at the sixth trial of a 2-back audio
    session with history 7, 5, 1, 1, 2 and current value 8, the triggered
    interference sets the channel to 5, the value 2 * n_back = 4 trials
    back. The values n_back - 1, n_back and n_back + 1 trials back are 2,
    1 and 1: the claim's candidates would leave the channel at 8. *)
Lemma interference_reaches_twice_n_back :
  (∃ r', apply_nback_matching [("audio", VInt 8)] lure_history 6 2 ["audio"]
           0.125 0.125 1 lure_rng = Ok ([("audio", VInt 5)], r'))
  ∧ lure_history !! "audio" = Some [VInt 7; VInt 5; VInt 1; VInt 1; VInt 2]
  ∧ getitem [VInt 7; VInt 5; VInt 1; VInt 1; VInt 2] (6 - (2 - 1) - 1) = Ok (VInt 2)
  ∧ getitem [VInt 7; VInt 5; VInt 1; VInt 1; VInt 2] (6 - 2 - 1) = Ok (VInt 1)
  ∧ getitem [VInt 7; VInt 5; VInt 1; VInt 1; VInt 2] (6 - (2 + 1) - 1) = Ok (VInt 1)
  ∧ getitem [VInt 7; VInt 5; VInt 1; VInt 1; VInt 2] (6 - (2 + 2) - 1) = Ok (VInt 5)
  ∧ Forall (λ v, py_eq v (VInt 5) = false) [VInt 2; VInt 1; VInt 1; VInt 8].
Proof.
  split; [eexists; vm_compute; reflexivity|].
  repeat split; try (by vm_compute). repeat constructor.
Qed.

End InterferenceSpec.
